(** * The Dragon script script_wizard std_datetime_str of cheml/chem/Dragon.py

    A shallow embedding of class [Dragon]: its constructor arguments, the
    element tree that [script_wizard] builds with lxml's objectify, the
    file written by [_save_script], and the loading of an existing script.

    Python objects are modelled as records, lxml elements as a tree of
    tags with an attribute map, the file system and the warning log as an
    explicit [world] that every call threads through.  Exceptions are
    values of [exn]; a call returns the final object, the final world and
    an [outcome]. *)

From Stdlib Require Import Ascii.
From stdpp Require Import base strings gmap list pretty.

#[local] Set Warnings "-register-all".
#[local] Open Scope Z_scope.

(** ** Exceptions and outcomes *)

Inductive exn :=
  | ValueError (msg : string)
  | TypeError (msg : string)
  | AttributeError (msg : string)
  | KeyError (key : string)
  | IndexError (msg : string)
  | IOError (path : string)
  | XMLSyntaxError (path : string).

(** [Return] stands for [return self]: the object returned is the final
    state of the receiver. *)
Inductive outcome :=
  | Return
  | Raise (e : exn).

(** ** Element trees

    An lxml element: tag, attributes, children in document order.  The
    attributes are a map: they are given as keyword arguments, whose order
    Python does not fix.  The type annotations that objectify attaches and
    [objectify.deannotate] strips again, and namespace declarations, are
    not represented: every observation the module makes of a tree (writing
    it, checking the section tags, reading the data path) is blind to them. *)
Inductive element :=
  Element { tag : string; attrib : gmap string string; children : list element }.

(** [parent.NAME] of objectify: the first child with that tag. *)
Definition find_child (name : string) (parent : element) : option element :=
  List.find (fun c => String.eqb (tag c) name) (children parent).

(** [objectify.Element(t, value = v)] *)
Definition value_element (t v : string) : element :=
  Element t {[ "value" := v ]} [].

(** [element.attrib['value']] *)
Definition value_of (e : element) : option string := attrib e !! "value".

(** The value attribute of the element [child] of the section [section]. *)
Definition section_value (section child : string) (doc : element) : option string :=
  s ← find_child section doc; c ← find_child child s; value_of c.

(** A tree under construction: the children appended to the current
    parent so far, and the exception that interrupted the construction, if
    one was raised.  Appending mutates the parent in place, so what was
    appended before an exception stays in the tree. *)
Definition building : Type := list element * option exn.

Definition nothing : building := ([], None).

(** [parent.append(e)] *)
Definition append (e : element) : building := ([e], None).

Definition raise (e : exn) : building := ([], Some e).

(** Sequencing: the second part runs only if the first raised nothing. *)
Definition and_then (a b : building) : building :=
  match a with
  | (xs, None) => (xs ++ b.1, b.2)
  | (xs, Some e) => (xs, Some e)
  end.

(** A block of statements, run in order. *)
Fixpoint block (steps : list building) : building :=
  match steps with
  | [] => nothing
  | [a] => a
  | a :: rest => and_then a (block rest)
  end.

(** [SUB = objectify.SubElement(parent, t)] followed by the statements that
    fill [SUB]: the sub-element is attached to its parent at once. *)
Definition SubElement (t : string) (body : building) : building :=
  ([Element t ∅ body.1], body.2).

(** [parent.append(objectify.Element(t, value = v))] where [v] may be
    [None]: lxml refuses an attribute value that is not a string. *)
Definition append_value (t : string) (v : option string) : building :=
  match v with
  | Some s => append (value_element t s)
  | None => raise (TypeError "Argument must be bytes or unicode, got 'NoneType'")
  end.

(** ** Formatting helpers *)

Definition _bool_formatter (b : bool) : string :=
  if b then "true" else "false".

(** ["%i" % n] *)
Definition fmt_i (n : Z) : string := pretty n.

(** [s.replace('-', '/')] *)
Fixpoint replace_dash (s : string) : string :=
  match s with
  | EmptyString => EmptyString
  | String c r => String (if Ascii.eqb c "-" then "/"%char else c) (replace_dash r)
  end.

(** [s[-1]] *)
Fixpoint last_char (s : string) : option ascii :=
  match s with
  | EmptyString => None
  | String c EmptyString => Some c
  | String _ r => last_char r
  end.

(** [s[0]] *)
Definition first_char (s : string) : option ascii :=
  match s with
  | EmptyString => None
  | String c _ => Some c
  end.

(** ** The constructor arguments of [Dragon] *)

Record params := mkParams {
  version : Z;
  CheckUpdates : bool;
  SaveLayout : bool;
  PreserveTemporaryProjects : bool;
  ShowWorksheet : bool;
  Decimal_Separator : string;
  Missing_String : string;
  DefaultMolFormat : string;
  HelpBrowser : string;
  RejectUnusualValence : bool;
  Add2DHydrogens : bool;
  MaxSRforAllCircuit : string;
  MaxSR : string;
  MaxSRDetour : string;
  MaxAtomWalkPath : string;
  LogPathWalk : bool;
  LogEdge : bool;
  Weights : list string;
  SaveOnlyData : bool;
  SaveLabelsOnSeparateFile : bool;
  SaveFormatBlock : string;
  SaveFormatSubBlock : string;
  SaveExcludeMisVal : bool;
  SaveExcludeAllMisVal : bool;
  SaveExcludeConst : bool;
  SaveExcludeNearConst : bool;
  SaveExcludeStdDev : bool;
  SaveStdDevThreshold : string;
  SaveExcludeCorrelated : bool;
  SaveCorrThreshold : string;
  SaveExclusionOptionsToVariables : bool;
  SaveExcludeMisMolecules : bool;
  SaveExcludeRejectedMolecules : bool;
  blocks : list Z;
  molInput : string;
  molInputFormat : string;
  molFile : option string;
  SaveStdOut : bool;
  SaveProject : bool;
  SaveProjectFile : string;
  SaveFile : bool;
  SaveType : string;
  SaveFilePath : string;
  logMode : string;
  logFile : string;
  external : bool;
  fileName : option string;
  delimiter : string;
  consecutiveDelimiter : bool;
  MissingValue : string;
  RejectDisconnectedStrucuture : bool;
  RetainBiggestFragment : bool;
  DisconnectedCalculationOption : string;
  RoundCoordinates : bool;
  RoundWeights : bool;
  RoundDescriptorValues : bool;
  knimemode : bool
}.

(** The defaults of [Dragon.__init__]; [blocks = range(1,30)]. *)
Definition defaults : params := {|
  version := 6;
  CheckUpdates := true;
  SaveLayout := true;
  PreserveTemporaryProjects := true;
  ShowWorksheet := false;
  Decimal_Separator := ".";
  Missing_String := "NaN";
  DefaultMolFormat := "1";
  HelpBrowser := "/usr/bin/xdg-open";
  RejectUnusualValence := false;
  Add2DHydrogens := false;
  MaxSRforAllCircuit := "19";
  MaxSR := "35";
  MaxSRDetour := "30";
  MaxAtomWalkPath := "2000";
  LogPathWalk := true;
  LogEdge := true;
  Weights := ["Mass"; "VdWVolume"; "Electronegativity"; "Polarizability";
              "Ionization"; "I-State"]%string;
  SaveOnlyData := false;
  SaveLabelsOnSeparateFile := false;
  SaveFormatBlock := "%b-%n.txt";
  SaveFormatSubBlock := "%b-%s-%n-%m.txt";
  SaveExcludeMisVal := false;
  SaveExcludeAllMisVal := false;
  SaveExcludeConst := false;
  SaveExcludeNearConst := false;
  SaveExcludeStdDev := false;
  SaveStdDevThreshold := "0.0001";
  SaveExcludeCorrelated := false;
  SaveCorrThreshold := "0.95";
  SaveExclusionOptionsToVariables := false;
  SaveExcludeMisMolecules := false;
  SaveExcludeRejectedMolecules := false;
  blocks := Z.of_nat <$> seq 1 29;
  molInput := "stdin";
  molInputFormat := "SMILES";
  molFile := None;
  SaveStdOut := false;
  SaveProject := false;
  SaveProjectFile := "Dragon_project.drp";
  SaveFile := true;
  SaveType := "singlefile";
  SaveFilePath := "Dragon_descriptors.txt";
  logMode := "file";
  logFile := "Dragon_log.txt";
  external := false;
  fileName := None;
  delimiter := ",";
  consecutiveDelimiter := false;
  MissingValue := "NaN";
  RejectDisconnectedStrucuture := false;
  RetainBiggestFragment := false;
  DisconnectedCalculationOption := "0";
  RoundCoordinates := true;
  RoundWeights := true;
  RoundDescriptorValues := true;
  knimemode := false
|}.

(** Keyword overrides.  [params_eta] rebuilds a record from its own
    fields; abstracting one projection out of it gives the function that
    replaces that field and keeps all the others. *)
Definition params_eta (p : params) : params :=
  mkParams (version p) (CheckUpdates p) (SaveLayout p)
    (PreserveTemporaryProjects p) (ShowWorksheet p) (Decimal_Separator p)
    (Missing_String p) (DefaultMolFormat p) (HelpBrowser p)
    (RejectUnusualValence p) (Add2DHydrogens p) (MaxSRforAllCircuit p)
    (MaxSR p) (MaxSRDetour p) (MaxAtomWalkPath p) (LogPathWalk p) (LogEdge p)
    (Weights p) (SaveOnlyData p) (SaveLabelsOnSeparateFile p)
    (SaveFormatBlock p) (SaveFormatSubBlock p) (SaveExcludeMisVal p)
    (SaveExcludeAllMisVal p) (SaveExcludeConst p) (SaveExcludeNearConst p)
    (SaveExcludeStdDev p) (SaveStdDevThreshold p) (SaveExcludeCorrelated p)
    (SaveCorrThreshold p) (SaveExclusionOptionsToVariables p)
    (SaveExcludeMisMolecules p) (SaveExcludeRejectedMolecules p) (blocks p)
    (molInput p) (molInputFormat p) (molFile p) (SaveStdOut p) (SaveProject p)
    (SaveProjectFile p) (SaveFile p) (SaveType p) (SaveFilePath p) (logMode p)
    (logFile p) (external p) (fileName p) (delimiter p)
    (consecutiveDelimiter p) (MissingValue p)
    (RejectDisconnectedStrucuture p) (RetainBiggestFragment p)
    (DisconnectedCalculationOption p) (RoundCoordinates p) (RoundWeights p)
    (RoundDescriptorValues p) (knimemode p).

Ltac setter proj v :=
  let e := eval unfold params_eta in params_eta in
  match eval pattern proj in e with
  | ?f _ => let r := eval cbv beta in (f (fun _ => v)) in exact r
  end.

Definition set_version (v : Z) : params -> params :=
  ltac:(setter version v).
Definition set_Missing_String (v : string) : params -> params :=
  ltac:(setter Missing_String v).
Definition set_Weights (v : list string) : params -> params :=
  ltac:(setter Weights v).
Definition set_blocks (v : list Z) : params -> params :=
  ltac:(setter blocks v).
Definition set_external (v : bool) : params -> params :=
  ltac:(setter external v).
Definition set_fileName (v : option string) : params -> params :=
  ltac:(setter fileName v).

(** ** The object and the world around it *)

(** A [Dragon] object: the attributes assigned by [__init__] ([args]) and
    the attributes that only [script_wizard] and [_save_script] create,
    absent ([None]) until then. *)
Record Dragon := mkDragon {
  args : params;
  output_directory : option string;
  dragon : option element;
  drs : option string;
  drs_name : option string;
  data_path : option string
}.

(** [Dragon(...)] *)
Definition Dragon__init__ (p : params) : Dragon :=
  mkDragon p None None None None None.

Definition set_args (p : params) (self : Dragon) : Dragon :=
  mkDragon p (output_directory self) (dragon self) (drs self) (drs_name self)
    (data_path self).
Definition set_output_directory (v : string) (self : Dragon) : Dragon :=
  mkDragon (args self) (Some v) (dragon self) (drs self) (drs_name self)
    (data_path self).
Definition set_dragon (v : element) (self : Dragon) : Dragon :=
  mkDragon (args self) (output_directory self) (Some v) (drs self)
    (drs_name self) (data_path self).
Definition set_drs (v : string) (self : Dragon) : Dragon :=
  mkDragon (args self) (output_directory self) (dragon self) (Some v)
    (drs_name self) (data_path self).
Definition set_drs_name (v : string) (self : Dragon) : Dragon :=
  mkDragon (args self) (output_directory self) (dragon self) (drs self)
    (Some v) (data_path self).
Definition set_data_path (v : string) (self : Dragon) : Dragon :=
  mkDragon (args self) (output_directory self) (dragon self) (drs self)
    (drs_name self) (Some v).

(** What a file holds: a well-formed document, given by its tree (what
    [etree.parse] returns for the text [etree.tostring] wrote), or
    something that is not XML. *)
Inductive content :=
  | XmlDocument (root : element)
  | NotXml.

(** Directories, files by path, and the warnings issued so far.  Paths are
    plain strings; the operating system calls are taken to succeed. *)
Record world := mkWorld {
  dirs : gset string;
  files : gmap string content;
  warnings : list string
}.

Definition os_path_exists (path : string) (w : world) : bool :=
  bool_decide (path ∈ dirs w) || bool_decide (is_Some (files w !! path)).

Definition os_makedirs (path : string) (w : world) : world :=
  mkWorld ({[ path ]} ∪ dirs w) (files w) (warnings w).

(** [with open(path, 'w') as outfile: outfile.write(...)] *)
Definition write_file (path : string) (c : content) (w : world) : world :=
  mkWorld (dirs w) (<[ path := c ]> (files w)) (warnings w).

(** [warnings.warn(msg, Warning)] *)
Definition warnings_warn (msg : string) (w : world) : world :=
  mkWorld (dirs w) (files w) (warnings w ++ [msg]).

(** ** The parts of a fresh script *)

Definition weight_types : list string :=
  ["Mass"; "VdWVolume"; "Electronegativity"; "Polarizability"; "Ionization";
   "I-State"]%string.

(** [for weight in self.Weights: ...] *)
Fixpoint Weights_loop (ws : list string) : building :=
  match ws with
  | [] => nothing
  | weight :: rest =>
      if bool_decide (weight ∈ weight_types) then
        block [ append (Element "weight" {[ "name" := weight ]} []);
                Weights_loop rest ]
      else
        raise (ValueError ("'" +:+ weight +:+ "' is not a valid weight type."))
  end.

(** [for i in self.blocks: ...], with the upper bound and the message of
    the version. *)
Fixpoint blocks_loop (hi : Z) (msg : string) (bs : list Z) : building :=
  match bs with
  | [] => nothing
  | i :: rest =>
      if (i <? 1) || (i >? hi) then
        raise (ValueError msg)
      else
        block [ append (Element "block"
                          {[ "id" := fmt_i i; "SelectAll" := "true" ]} []);
                blocks_loop hi msg rest ]
  end.

(** The statements that fill [MOLFILES], with the formats the version
    accepts and their rendering in the message. *)
Definition MOLFILES_body (formats : list string) (shown : string) (p : params)
  : building :=
  block [
    append (value_element "molInput" (molInput p));
    if String.eqb (molInput p) "stdin" then
      if bool_decide (molInputFormat p ∈ formats) then
        append (value_element "molInputFormat" (molInputFormat p))
      else
        raise (ValueError ("'" +:+ molInputFormat p +:+
                           "' is not a valid molInputFormat. Formats:" +:+ shown))
    else if String.eqb (molInput p) "file" then
      append_value "molFile" (molFile p)
    else
      raise (ValueError "Enter a valid molInput: 'stdin' or 'file'")
  ].

(** The statements that fill [OUTPUT] from [SaveStdOut] on, the same in
    both versions. *)
Definition OUTPUT_body (p : params) (output_directory : string) : building :=
  block [
    append (value_element "SaveStdOut" (_bool_formatter (SaveStdOut p)));
    append (value_element "SaveProject" (_bool_formatter (SaveProject p)));
    if SaveProject p then
      append (value_element "SaveProjectFile" (SaveProjectFile p))
    else nothing;
    append (value_element "SaveFile" (_bool_formatter (SaveFile p)));
    if SaveFile p then
      block [
        append (value_element "SaveType" (SaveType p));
        append (value_element "SaveFilePath" (output_directory +:+ SaveFilePath p))
      ]
    else nothing;
    append (value_element "logMode" (logMode p));
    if String.eqb (logMode p) "file" then
      append (value_element "logFile" (output_directory +:+ logFile p))
    else nothing
  ].

(** [if self.external: ...] *)
Definition EXTERNAL_section (p : params) : building :=
  if external p then
    SubElement "EXTERNAL" (block [
      append_value "fileName" (fileName p);
      append (value_element "delimiter" (delimiter p));
      append (value_element "consecutiveDelimiter"
                (_bool_formatter (consecutiveDelimiter p)));
      append (value_element "MissingValue" (MissingValue p))
    ])
  else nothing.

(** The statements that fill [OPTIONS], version 6. *)
Definition OPTIONS_body6 (p : params) : building :=
  block [
    append (value_element "CheckUpdates" (_bool_formatter (CheckUpdates p)));
    append (value_element "SaveLayout" (_bool_formatter (SaveLayout p)));
    append (value_element "ShowWorksheet" (_bool_formatter (ShowWorksheet p)));
    append (value_element "Decimal_Separator" (Decimal_Separator p));
    append (value_element "Missing_String" (Missing_String p));
    append (value_element "DefaultMolFormat" (DefaultMolFormat p));
    append (value_element "HelpBrowser" (HelpBrowser p));
    append (value_element "RejectUnusualValence" (_bool_formatter (RejectUnusualValence p)));
    append (value_element "Add2DHydrogens" (_bool_formatter (Add2DHydrogens p)));
    append (value_element "MaxSRforAllCircuit" (MaxSRforAllCircuit p));
    append (value_element "MaxSR" (MaxSR p));
    append (value_element "MaxSRDetour" (MaxSRDetour p));
    append (value_element "MaxAtomWalkPath" (MaxAtomWalkPath p));
    append (value_element "LogPathWalk" (_bool_formatter (LogPathWalk p)));
    append (value_element "LogEdge" (_bool_formatter (LogEdge p)));
    SubElement "Weights" (Weights_loop (Weights p));
    append (value_element "SaveOnlyData" (_bool_formatter (SaveOnlyData p)));
    append (value_element "SaveLabelsOnSeparateFile" (_bool_formatter (SaveLabelsOnSeparateFile p)));
    append (value_element "SaveFormatBlock" (SaveFormatBlock p));
    append (value_element "SaveFormatSubBlock" (SaveFormatSubBlock p));
    append (value_element "SaveExcludeMisVal" (_bool_formatter (SaveExcludeMisVal p)));
    append (value_element "SaveExcludeAllMisVal" (_bool_formatter (SaveExcludeAllMisVal p)));
    append (value_element "SaveExcludeConst" (_bool_formatter (SaveExcludeConst p)));
    append (value_element "SaveExcludeNearConst" (_bool_formatter (SaveExcludeNearConst p)));
    append (value_element "SaveExcludeStdDev" (_bool_formatter (SaveExcludeStdDev p)));
    append (value_element "SaveStdDevThreshold" (SaveStdDevThreshold p));
    append (value_element "SaveExcludeCorrelated" (_bool_formatter (SaveExcludeCorrelated p)));
    append (value_element "SaveCorrThreshold" (SaveCorrThreshold p));
    append (value_element "SaveExclusionOptionsToVariables" (_bool_formatter (SaveExclusionOptionsToVariables p)));
    append (value_element "SaveExcludeMisMolecules" (_bool_formatter (SaveExcludeMisMolecules p)));
    append (value_element "SaveExcludeRejectedMolecules" (_bool_formatter (SaveExcludeRejectedMolecules p)))
  ].

(** The statements that fill [OPTIONS], version 7.  The rewriting of
    [Missing_String] (line 239) is done by [script_wizard] on the object
    before this runs: nothing reads the attribute in between. *)
Definition OPTIONS_body7 (p : params) : building :=
  block [
    append (value_element "CheckUpdates" (_bool_formatter (CheckUpdates p)));
    append (value_element "PreserveTemporaryProjects" (_bool_formatter (PreserveTemporaryProjects p)));
    append (value_element "SaveLayout" (_bool_formatter (SaveLayout p)));
    append (value_element "Decimal_Separator" (Decimal_Separator p));
    append (value_element "Missing_String" (Missing_String p));
    append (value_element "DefaultMolFormat" (DefaultMolFormat p));
    append (value_element "RejectDisconnectedStrucuture" (_bool_formatter (RejectDisconnectedStrucuture p)));
    append (value_element "RetainBiggestFragment" (_bool_formatter (RetainBiggestFragment p)));
    append (value_element "RejectUnusualValence" (_bool_formatter (RejectUnusualValence p)));
    append (value_element "Add2DHydrogens" (_bool_formatter (Add2DHydrogens p)));
    append (value_element "DisconnectedCalculationOption" (DisconnectedCalculationOption p));
    append (value_element "MaxSRforAllCircuit" (MaxSRforAllCircuit p));
    append (value_element "MaxSRDetour" (MaxSRDetour p));
    append (value_element "MaxAtomWalkPath" (MaxAtomWalkPath p));
    append (value_element "RoundCoordinates" (_bool_formatter (RoundCoordinates p)));
    append (value_element "RoundWeights" (_bool_formatter (RoundWeights p)));
    append (value_element "LogPathWalk" (_bool_formatter (LogPathWalk p)));
    append (value_element "LogEdge" (_bool_formatter (LogEdge p)));
    SubElement "Weights" (Weights_loop (Weights p));
    append (value_element "SaveOnlyData" (_bool_formatter (SaveOnlyData p)));
    append (value_element "SaveLabelsOnSeparateFile" (_bool_formatter (SaveLabelsOnSeparateFile p)));
    append (value_element "SaveFormatBlock" (SaveFormatBlock p));
    append (value_element "SaveFormatSubBlock" (SaveFormatSubBlock p));
    append (value_element "SaveExcludeMisVal" (_bool_formatter (SaveExcludeMisVal p)));
    append (value_element "SaveExcludeAllMisVal" (_bool_formatter (SaveExcludeAllMisVal p)));
    append (value_element "SaveExcludeConst" (_bool_formatter (SaveExcludeConst p)));
    append (value_element "SaveExcludeNearConst" (_bool_formatter (SaveExcludeNearConst p)));
    append (value_element "SaveExcludeStdDev" (_bool_formatter (SaveExcludeStdDev p)));
    append (value_element "SaveStdDevThreshold" (SaveStdDevThreshold p));
    append (value_element "SaveExcludeCorrelated" (_bool_formatter (SaveExcludeCorrelated p)));
    append (value_element "SaveCorrThreshold" (SaveCorrThreshold p));
    append (value_element "SaveExclusionOptionsToVariables" (_bool_formatter (SaveExclusionOptionsToVariables p)));
    append (value_element "SaveExcludeMisMolecules" (_bool_formatter (SaveExcludeMisMolecules p)));
    append (value_element "SaveExcludeRejectedMolecules" (_bool_formatter (SaveExcludeRejectedMolecules p)));
    append (value_element "RoundDescriptorValues" (_bool_formatter (RoundDescriptorValues p)))
  ].

Definition formats6 : list string :=
  ["SYBYL"; "MDL"; "HYPERCHEM"; "SMILES"; "MACROMODEL"]%string.
Definition formats7 : list string :=
  ["SYBYL"; "MDL"; "HYPERCHEM"; "SMILES"; "CML"; "MACROMODEL"]%string.

(** The sections of a version 6 script, lines 152 to 227. *)
Definition sections6 (p : params) (output_directory : string) : building :=
  block [
    SubElement "OPTIONS" (OPTIONS_body6 p);
    SubElement "DESCRIPTORS"
      (blocks_loop 29 "block id must be in range 1 to 29." (blocks p));
    SubElement "MOLFILES"
      (MOLFILES_body formats6
         "['SYBYL','MDL','HYPERCHEM','SMILES','MACROMODEL']" p);
    SubElement "OUTPUT" (OUTPUT_body p output_directory);
    EXTERNAL_section p
  ].

(** The sections of a version 7 script, lines 233 to 317. *)
Definition sections7 (p : params) (output_directory : string) : building :=
  block [
    SubElement "OPTIONS" (OPTIONS_body7 p);
    SubElement "DESCRIPTORS"
      (blocks_loop 30 "block id must be in range 1 to 30." (blocks p));
    SubElement "MOLFILES"
      (MOLFILES_body formats7
         "['SYBYL','MDL','HYPERCHEM','SMILES','CML','MACROMODEL']" p);
    SubElement "OUTPUT"
      (block [
         append (value_element "knimemode" (_bool_formatter (knimemode p)));
         OUTPUT_body p output_directory ]);
    EXTERNAL_section p
  ].

(** The stored directory for an argument: the argument itself when it
    ends with the separator, the argument followed by one otherwise. *)
Definition stored_directory (output_directory_arg : string) : string :=
  match last_char output_directory_arg with
  | Some "/"%char => output_directory_arg
  | _ => output_directory_arg +:+ "/"
  end.

(** The arguments as they stand after line 239. *)
Definition effective (p : params) : params :=
  if version p =? 7 then
    if String.eqb (Missing_String p) "NaN" then set_Missing_String "na" p else p
  else p.

(** The messages of lines 321 and 336. *)
Definition unsupported_message : string :=
  "Only version 6 and version 7 (newest version) are available in this module.".
Definition mandatory_message : string :=
  "Dragon script does not contain all mandatory nodes, which are:['OPTIONS', 'DESCRIPTORS', 'MOLFILES', 'OUTPUT']".

Section Wizard.

(** [std_datetime_str] of [cheml.utils.utilities] is not part of the
    sources at hand: it is a parameter, the string it returns for a mode. *)
Variable std_datetime_str : string -> string.

Definition generation_date : string := replace_dash (std_datetime_str "date").

(** The tree [self.dragon] holds when the version 6 branch ends, normally
    or by an exception. *)
Definition dragon6 (p : params) (output_directory : string)
  : element * option exn :=
  let b := sections6 p output_directory in
  (Element "DRAGON"
     {[ "version" := fmt_i (version p) +:+ ".0.0";
        "script_version" := "1";
        "generation_date" := generation_date ]} b.1,
   b.2).

(** The same for the version 7 branch. *)
Definition dragon7 (p : params) (output_directory : string)
  : element * option exn :=
  let b := sections7 p output_directory in
  (Element "DRAGON"
     {[ "version" := fmt_i (version p) +:+ ".0.0";
        "description" := "Dragon7 - FP1 - MD5270";
        "script_version" := "1";
        "generation_date" := generation_date ]} b.1,
   b.2).

(** ** [_save_script] *)

Definition _save_script (self : Dragon) (w : world)
  : Dragon * world * option exn :=
  match dragon self with
  | None =>
      (self, w, Some (AttributeError "'Dragon' object has no attribute 'dragon'"))
  | Some doc =>
      let self := set_drs_name "Dragon_script.drs" self in
      match output_directory self with
      | None =>
          (self, w,
           Some (AttributeError "'Dragon' object has no attribute 'output_directory'"))
      | Some dir =>
          (self, write_file (dir +:+ "Dragon_script.drs") (XmlDocument doc) w, None)
      end
  end.

(** ** [script_wizard] *)

(** Line 339: [self.data_path = self.dragon.OUTPUT.SaveFilePath.attrib['value']],
    then [return self]. *)
Definition read_data_path (self : Dragon) (w : world)
  : Dragon * world * outcome :=
  match dragon self with
  | None =>
      (self, w, Raise (AttributeError "'Dragon' object has no attribute 'dragon'"))
  | Some doc =>
      match find_child "OUTPUT" doc with
      | None => (self, w, Raise (AttributeError "no such child: OUTPUT"))
      | Some out =>
          match find_child "SaveFilePath" out with
          | None => (self, w, Raise (AttributeError "no such child: SaveFilePath"))
          | Some sfp =>
              match attrib sfp !! "value" with
              | None => (self, w, Raise (KeyError "value"))
              | Some v => (set_data_path v self, w, Return)
              end
          end
      end
  end.

(** The end of a fresh branch: the tree built is in [self.dragon]; if no
    exception interrupted it, [_save_script] and line 339 follow. *)
Definition finish_fresh (built : element * option exn) (self : Dragon) (w : world)
  : Dragon * world * outcome :=
  let self := set_dragon built.1 self in
  match built.2 with
  | Some e => (self, w, Raise e)
  | None =>
      match _save_script self w with
      | (self, w, Some e) => (self, w, Raise e)
      | (self, w, None) => read_data_path self w
      end
  end.

Definition mandatory_nodes : list string :=
  ["OPTIONS"; "DESCRIPTORS"; "MOLFILES"; "OUTPUT"]%string.

(** Lines 325 to 338: the branch that loads an existing script. *)
Definition load_script (script : string) (self : Dragon) (w : world)
  : Dragon * world * outcome :=
  match files w !! script with
  | None => (self, w, Raise (IOError script))
  | Some NotXml => (self, w, Raise (XMLSyntaxError script))
  | Some (XmlDocument doc) =>
      let self := set_dragon doc self in
      match attrib doc !! "version" with
      | None => (self, w, Raise (KeyError "version"))
      | Some ver =>
          match first_char ver with
          | None => (self, w, Raise (IndexError "string index out of range"))
          | Some c =>
              let w :=
                if bool_decide (c ∈ ["6"; "7"]%char) then w
                else warnings_warn "Dragon script is not labeled to the newest vesions of Dragon, 6 or 7. This may causes some problems." w in
              let reported_nodes := tag <$> children doc in
              if forallb (fun m => bool_decide (m ∈ reported_nodes)) mandatory_nodes
              then read_data_path (set_drs script self) w
              else
                (self, w,
                 Raise (ValueError mandatory_message))
          end
      end
  end.

(** Line 239: [if self.Missing_String == "NaN": self.Missing_String = "na"] *)
Definition rewrite_Missing_String (self : Dragon) : Dragon :=
  if String.eqb (Missing_String (args self)) "NaN"
  then set_args (set_Missing_String "na" (args self)) self
  else self.

(** Lines 145 and 146 *)
Definition ensure_directory (dir : string) (w : world) : world :=
  if os_path_exists dir w then w else os_makedirs dir w.

(** [self.script_wizard(script, output_directory)] *)
Definition script_wizard (script output_directory_arg : string)
    (self : Dragon) (w : world) : Dragon * world * outcome :=
  match last_char output_directory_arg with
  | None => (self, w, Raise (IndexError "string index out of range"))
  | Some c =>
      let dir :=
        if Ascii.eqb c "/" then output_directory_arg
        else output_directory_arg +:+ "/" in
      let self := set_output_directory dir self in
      let w := ensure_directory dir w in
      if String.eqb script "new" then
        if version (args self) =? 6 then
          finish_fresh (dragon6 (args self) dir) self w
        else if version (args self) =? 7 then
          let self := rewrite_Missing_String self in
          finish_fresh (dragon7 (args self) dir) self w
        else
          read_data_path self
            (warnings_warn unsupported_message w)
      else
        load_script script self w
  end.

(** The tree in [self.dragon] when a fresh branch of a supported version
    ends. *)
Definition fresh_tree (p : params) (dir : string) : element * option exn :=
  if version p =? 6 then dragon6 p dir
  else dragon7 (effective p) dir.

(** The object and the world when the fresh branch of a supported version
    has built its tree. *)
Definition built_self (outdir : string) (self : Dragon) : Dragon :=
  let dir := stored_directory outdir in
  set_dragon (fresh_tree (args self) dir).1
    (set_args (effective (args self)) (set_output_directory dir self)).

Definition saved_self (outdir : string) (self : Dragon) : Dragon :=
  set_drs_name "Dragon_script.drs" (built_self outdir self).

Definition saved_world (outdir : string) (self : Dragon) (w : world) : world :=
  let dir := stored_directory outdir in
  write_file (dir +:+ "Dragon_script.drs")
    (XmlDocument (fresh_tree (args self) dir).1) (ensure_directory dir w).

End Wizard.

(** ** Vocabulary of the properties *)

(** The number of separators a path ends with. *)
Fixpoint trailing_seps (s : string) : nat :=
  match s with
  | EmptyString => 0%nat
  | String c r =>
      if Ascii.eqb c "/" && (trailing_seps r =? String.length r)%nat
      then S (trailing_seps r)
      else trailing_seps r
  end.

(** Block ids and input formats accepted by a supported version. *)
Definition block_limit (v : Z) : Z := if v =? 6 then 29 else 30.
Definition formats (v : Z) : list string := if v =? 6 then formats6 else formats7.

Definition supported (v : Z) : Prop := v = 6 ∨ v = 7.

Definition weights_valid (p : params) : Prop :=
  Forall (fun x => x ∈ weight_types) (Weights p).

Definition blocks_valid (p : params) : Prop :=
  Forall (fun i => 1 ≤ i ≤ block_limit (version p)) (blocks p).

(** The stream source with an accepted format, or the file source with a
    path. *)
Definition molfiles_valid (p : params) : Prop :=
  (molInput p = "stdin" ∧ molInputFormat p ∈ formats (version p)) ∨
  (molInput p = "file" ∧ is_Some (molFile p)).


(** The script file is in the world, holding [doc]. *)
Definition persisted (dir : string) (doc : element) (w : world) : Prop :=
  files w !! (dir +:+ "Dragon_script.drs") = Some (XmlDocument doc).

Definition has_section (name : string) (doc : element) : Prop :=
  name ∈ tag <$> children doc.

Definition weight_element (x : string) : element :=
  Element "weight" {[ "name" := x ]} [].

Definition block_element (i : Z) : element :=
  Element "block" {[ "id" := fmt_i i; "SelectAll" := "true" ]} [].


Definition block_message (v : Z) : string :=
  if v =? 6 then "block id must be in range 1 to 29."
  else "block id must be in range 1 to 30.".

Definition format_message (v : Z) (x : string) : string :=
  "'" +:+ x +:+ "' is not a valid molInputFormat. Formats:" +:+
  (if v =? 6 then "['SYBYL','MDL','HYPERCHEM','SMILES','MACROMODEL']"
   else "['SYBYL','MDL','HYPERCHEM','SMILES','CML','MACROMODEL']").

Definition EXTERNAL_fields (p : params) (fn : string) : list element :=
  [ value_element "fileName" fn;
    value_element "delimiter" (delimiter p);
    value_element "consecutiveDelimiter" (_bool_formatter (consecutiveDelimiter p));
    value_element "MissingValue" (MissingValue p) ].


(** The fresh branches, described once for both versions. *)

Definition Weights_part (p : params) : building := Weights_loop (Weights p).

Definition blocks_part (p : params) : building :=
  blocks_loop (block_limit (version p)) (block_message (version p)) (blocks p).

Definition MOLFILES_part (p : params) : building :=
  if version p =? 6 then
    MOLFILES_body formats6 "['SYBYL','MDL','HYPERCHEM','SMILES','MACROMODEL']" p
  else
    MOLFILES_body formats7 "['SYBYL','MDL','HYPERCHEM','SMILES','CML','MACROMODEL']" p.

Definition OPTIONS_part (p : params) : building :=
  if version p =? 6 then OPTIONS_body6 p else OPTIONS_body7 (effective p).

Definition OUTPUT_part (p : params) (dir : string) : list element :=
  if version p =? 6 then (OUTPUT_body p dir).1
  else value_element "knimemode" (_bool_formatter (knimemode p))
       :: (OUTPUT_body p dir).1.

(** The exception a fresh build of a supported version runs into before
    saving, in the order the checks are made. *)
Definition fresh_exn (p : params) : option exn :=
  from_option Some (from_option Some (from_option Some
    (EXTERNAL_section p).2 (MOLFILES_part p).2) (blocks_part p).2)
    (Weights_part p).2.

(** The sections attached to the root when the fresh branch ends. *)
Definition fresh_children (p : params) (dir : string) : list element :=
  Element "OPTIONS" ∅ (OPTIONS_part p).1 ::
  (if (Weights_part p).2 is Some _ then [] else
   Element "DESCRIPTORS" ∅ (blocks_part p).1 ::
   (if (blocks_part p).2 is Some _ then [] else
    Element "MOLFILES" ∅ (MOLFILES_part p).1 ::
    (if (MOLFILES_part p).2 is Some _ then [] else
     Element "OUTPUT" ∅ (OUTPUT_part p dir) :: (EXTERNAL_section p).1))).

(** ** Concrete objects and runs *)

Definition example_clock (mode : string) : string := "2015-11-19".

Definition empty_world : world := mkWorld ∅ ∅ [].

(** [Dragon().script_wizard()] *)
Definition default_run : Dragon * world * outcome :=
  script_wizard example_clock "new" "./" (Dragon__init__ defaults) empty_world.

(** The example of the specification: version 7, three blocks, two
    weights, the stream source with SMILES. *)
Definition example7 : Dragon :=
  Dragon__init__
    (set_version 7 (set_blocks [1; 2; 3] (set_Weights ["Mass"; "VdWVolume"]%string defaults))).

Definition example7_run : Dragon * world * outcome :=
  script_wizard example_clock "new" "out" example7 empty_world.

Definition bad_weight : Dragon :=
  Dragon__init__ (set_Weights ["Mass"; "Volume"]%string defaults).

Definition bad_weight_run : Dragon * world * outcome :=
  script_wizard example_clock "new" "out" bad_weight empty_world.



Definition with_external : Dragon :=
  Dragon__init__ (set_external true (set_fileName (Some "external.csv") defaults)).

Definition with_external_run : Dragon * world * outcome :=
  script_wizard example_clock "new" "out/" with_external empty_world.

(** ** [printout] and [run] *)

(** What the object prints and the commands it hands to [os.system], in
    order.  What the external program does with a command is outside the
    module. *)
Record console := mkConsole {
  stdout : list string;
  commands : list string
}.

Definition print (line : string) (c : console) : console :=
  mkConsole (stdout c ++ [line]) (commands c).

Definition os_system (command : string) (c : console) : console :=
  mkConsole (stdout c) (commands c ++ [command]).

Section Printout.

(** [objectify.dump] of lxml, the rendering of a tree as text, is a
    parameter. *)
Variable objectify_dump : element -> string.

(** [self.printout()] *)
Definition printout (self : Dragon) (c : console) : console * outcome :=
  match dragon self with
  | None =>
      (c, Raise (AttributeError "'Dragon' object has no attribute 'dragon'"))
  | Some doc => (print (objectify_dump doc) c, Return)
  end.

End Printout.

(** [self.run()]: the first line is printed before the command string is
    put together from [self.output_directory] and [self.drs_name]. *)
Definition run (self : Dragon) (c : console) : console * outcome :=
  let c := print ("running Dragon" +:+ fmt_i (version (args self)) +:+ " ...") c in
  match output_directory self with
  | None =>
      (c, Raise (AttributeError "'Dragon' object has no attribute 'output_directory'"))
  | Some dir =>
      match drs_name self with
      | None =>
          (c, Raise (AttributeError "'Dragon' object has no attribute 'drs_name'"))
      | Some name =>
          let c :=
            os_system ("nohup dragon" +:+ fmt_i (version (args self)) +:+
                       "shell -s " +:+ dir +:+ name) c in
          (print "... Dragon job completed!" c, Return)
      end
  end.

(** An element without children whose only attribute is [value]. *)
Definition is_leaf (e : element) : Prop :=
  children e = [] ∧ ∃ v, attrib e = {[ "value" := v ]}.

(** The script file of a directory argument. *)
Definition script_path (outdir : string) : string :=
  stored_directory outdir +:+ "Dragon_script.drs".

Definition label_message : string :=
  "Dragon script is not labeled to the newest vesions of Dragon, 6 or 7. This may causes some problems.".



Definition unsupported8 : Dragon :=
  Dragon__init__ (set_version 8 defaults).

(** A script of an older Dragon, as a user could have it on disk. *)
Definition old_script : element :=
  Element "DRAGON" {[ "version" := "5.4.0" ]}
    [ Element "OPTIONS" ∅ [];
      Element "DESCRIPTORS" ∅ [];
      Element "MOLFILES" ∅ [];
      Element "OUTPUT" ∅ [value_element "SaveFilePath" "old/descriptors.txt"] ].

Definition old_world : world :=
  mkWorld ∅ {[ "old/script.drs" := XmlDocument old_script ]} [].



Definition empty_console : console := mkConsole [] [].

(** The concrete calls of the further properties. *)
Abbreviation default_call :=
  (script_wizard example_clock "new" "./" (Dragon__init__ defaults) empty_world).
Abbreviation example7_call :=
  (script_wizard example_clock "new" "out" example7 empty_world).
Abbreviation with_external_call :=
  (script_wizard example_clock "new" "out/" with_external empty_world).
Abbreviation loaded_call :=
  (script_wizard example_clock "old/script.drs" "out" unsupported8 old_world).

(** ** Strings and directories *)

Lemma last_char_None s : last_char s = None ↔ s = "".
Proof.
  induction s as [|c r IH]; [done|].
  split; [|done]. cbn. destruct r; [done|]. intros H. apply IH in H. done.
Qed.

Lemma last_char_app_sep s : last_char (s +:+ "/") = Some "/"%char.
Proof.
  induction s as [|c r IH]; [done|].
  change (String c r +:+ "/") with (String c (r +:+ "/")).
  cbn [last_char]. destruct (r +:+ "/") eqn:E; [|done].
  destruct r; discriminate.
Qed.

Lemma stored_directory_last s : last_char (stored_directory s) = Some "/"%char.
Proof.
  unfold stored_directory.
  destruct (last_char s) as [c|] eqn:E; [|apply last_char_app_sep].
  destruct (Ascii.eqb_spec c "/") as [->|Hne].
  - done.
  - replace (match c with "/"%char => s | _ => s +:+ "/" end) with (s +:+ "/").
    + apply last_char_app_sep.
    + destruct c as [[] [] [] [] [] [] [] []]; try reflexivity. done.
Qed.

Lemma stored_directory_eqb s c :
  last_char s = Some c →
  (if Ascii.eqb c "/" then s else s +:+ "/") = stored_directory s.
Proof.
  intros E. unfold stored_directory. rewrite E.
  destruct (Ascii.eqb_spec c "/") as [->|Hne]; [done|].
  destruct c as [[] [] [] [] [] [] [] []]; try reflexivity. done.
Qed.

Lemma length_app_string (a b : string) :
  String.length (a +:+ b) = (String.length a + String.length b)%nat.
Proof. induction a as [|c a IH]; simpl; [done|]. f_equal. exact IH. Qed.

Lemma trailing_seps_le s : (trailing_seps s ≤ String.length s)%nat.
Proof.
  induction s as [|c r IH]; cbn; [lia|].
  destruct (_ && _); lia.
Qed.

Lemma trailing_seps_app_sep s : trailing_seps (s +:+ "/") = S (trailing_seps s).
Proof.
  induction s as [|c r IH]; [done|].
  change (String c r +:+ "/") with (String c (r +:+ "/")).
  cbn [trailing_seps]. rewrite IH, length_app_string. cbn [String.length].
  replace (S (trailing_seps r) =? String.length r + 1)%nat
    with (trailing_seps r =? String.length r)%nat.
  - by destruct (_ && _).
  - destruct (Nat.eqb_spec (trailing_seps r) (String.length r)),
      (Nat.eqb_spec (S (trailing_seps r)) (String.length r + 1)); lia.
Qed.

Lemma trailing_seps_0 s : trailing_seps s = 0%nat ↔ last_char s ≠ Some "/"%char.
Proof.
  induction s as [|c r IH]; [done|].
  cbn [trailing_seps last_char]. destruct r as [|c' r'].
  - cbn. destruct (Ascii.eqb_spec c "/") as [->|Hne]; cbn; split; try done.
    intros _ [=]. done.
  - rewrite <- IH.
    destruct (Nat.eqb_spec (trailing_seps (String c' r')) (String.length (String c' r')))
      as [E|E]; rewrite ?andb_true_r, ?andb_false_r; [|done].
    cbn [String.length] in E.
    destruct (Ascii.eqb c "/"); split; intros; lia.
Qed.

Lemma trailing_seps_stored s :
  trailing_seps (stored_directory s) = Nat.max 1 (trailing_seps s).
Proof.
  unfold stored_directory.
  destruct (last_char s) as [c|] eqn:E.
  - destruct (Ascii.eqb_spec c "/") as [->|Hne].
    + assert (trailing_seps s ≠ 0%nat) by (rewrite trailing_seps_0, E; auto). lia.
    + replace (match c with "/"%char => s | _ => s +:+ "/" end) with (s +:+ "/").
      * assert (trailing_seps s = 0%nat) as H0
          by (rewrite trailing_seps_0, E; congruence).
        rewrite trailing_seps_app_sep, H0. done.
      * destruct c as [[] [] [] [] [] [] [] []]; try reflexivity. done.
  - apply last_char_None in E as ->. done.
Qed.

(** ** Trees under construction *)

Lemma Weights_loop_valid ws :
  Forall (fun x => x ∈ weight_types) ws →
  Weights_loop ws = (weight_element <$> ws, None).
Proof.
  induction 1 as [|x ws Hx _ IH]; [done|].
  cbn [Weights_loop]. rewrite bool_decide_eq_true_2 by done.
  rewrite IH. reflexivity.
Qed.



Lemma blocks_loop_valid hi msg bs :
  Forall (fun i => 1 ≤ i ≤ hi) bs →
  blocks_loop hi msg bs = (block_element <$> bs, None).
Proof.
  induction 1 as [|i bs Hi _ IH]; [done|].
  cbn [blocks_loop].
  replace ((i <? 1) || (i >? hi)) with false by lia.
  rewrite IH. reflexivity.
Qed.

Lemma blocks_loop_raises hi msg bs e :
  (blocks_loop hi msg bs).2 = Some e → e = ValueError msg.
Proof.
  induction bs as [|i bs IH]; [done|].
  cbn [blocks_loop]. destruct ((i <? 1) || (i >? hi)).
  - by intros [= <-].
  - destruct (blocks_loop hi msg bs) as [xs [e'|]]; [|done].
    intros [= <-]. by apply IH.
Qed.


(** The five top-level steps of a fresh script: which exception comes out,
    and which sections are attached when it does. *)
Lemma sections_shape (o d m u x : building) :
  let s := block [SubElement "OPTIONS" o; SubElement "DESCRIPTORS" d;
                  SubElement "MOLFILES" m; SubElement "OUTPUT" u; x] in
  s.2 = from_option Some (from_option Some (from_option Some
          (from_option Some x.2 u.2) m.2) d.2) o.2 ∧
  s.1 = Element "OPTIONS" ∅ o.1 ::
        (if o.2 is Some _ then [] else Element "DESCRIPTORS" ∅ d.1 ::
        (if d.2 is Some _ then [] else Element "MOLFILES" ∅ m.1 ::
        (if m.2 is Some _ then [] else Element "OUTPUT" ∅ u.1 ::
        (if u.2 is Some _ then [] else x.1)))).
Proof.
  destruct o as [? [?|]], d as [? [?|]], m as [? [?|]], u as [? [?|]],
    x as [? [?|]]; split; reflexivity.
Qed.

Lemma OPTIONS_body6_exn p : (OPTIONS_body6 p).2 = (Weights_loop (Weights p)).2.
Proof.
  unfold OPTIONS_body6. destruct (Weights_loop (Weights p)) as [? [?|]];
    reflexivity.
Qed.

Lemma OPTIONS_body7_exn p : (OPTIONS_body7 p).2 = (Weights_loop (Weights p)).2.
Proof.
  unfold OPTIONS_body7. destruct (Weights_loop (Weights p)) as [? [?|]];
    reflexivity.
Qed.



Lemma OUTPUT_body_exn p dir : (OUTPUT_body p dir).2 = None.
Proof.
  unfold OUTPUT_body.
  destruct (SaveProject p), (SaveFile p), (String.eqb (logMode p) "file");
    reflexivity.
Qed.

Lemma OUTPUT_body_SaveFilePath p dir a pre :
  Forall (fun e => tag e ≠ "SaveFilePath") pre →
  find_child "SaveFilePath" (Element "OUTPUT" a (pre ++ (OUTPUT_body p dir).1))
  = if SaveFile p then Some (value_element "SaveFilePath" (dir +:+ SaveFilePath p))
    else None.
Proof.
  intros Hpre. unfold find_child. cbn [children].
  induction Hpre as [|e pre He _ IH].
  - unfold OUTPUT_body.
    destruct (SaveProject p), (SaveFile p), (String.eqb (logMode p) "file");
      reflexivity.
  - cbn [app List.find]. apply String.eqb_neq in He. by rewrite He.
Qed.

Lemma OUTPUT_body_SaveFile p dir a pre :
  Forall (fun e => tag e ≠ "SaveFile") pre →
  find_child "SaveFile" (Element "OUTPUT" a (pre ++ (OUTPUT_body p dir).1))
  = Some (value_element "SaveFile" (_bool_formatter (SaveFile p))).
Proof.
  intros Hpre. unfold find_child. cbn [children].
  induction Hpre as [|e pre He _ IH].
  - unfold OUTPUT_body.
    destruct (SaveProject p), (SaveFile p), (String.eqb (logMode p) "file");
      reflexivity.
  - cbn [app List.find]. apply String.eqb_neq in He. by rewrite He.
Qed.

Lemma EXTERNAL_section_cases p :
  (external p = false ∧ EXTERNAL_section p = ([], None)) ∨
  (external p = true ∧ ∃ fn, fileName p = Some fn ∧
     EXTERNAL_section p = ([Element "EXTERNAL" ∅ (EXTERNAL_fields p fn)], None)) ∨
  (external p = true ∧ fileName p = None ∧ ∃ e xs,
     EXTERNAL_section p = (xs, Some (TypeError e))).
Proof.
  unfold EXTERNAL_section. destruct (external p); [|by left].
  right. destruct (fileName p) as [fn|].
  - left. split; [done|]. exists fn. split; reflexivity.
  - right. split_and!; [done..|]. by eexists _, _.
Qed.

Lemma MOLFILES_body_cases fs shown p :
  (molInput p = "stdin" ∧ molInputFormat p ∈ fs ∧
   MOLFILES_body fs shown p =
     ([value_element "molInput" (molInput p);
       value_element "molInputFormat" (molInputFormat p)], None)) ∨
  (molInput p = "stdin" ∧ (molInputFormat p ∉ fs) ∧
   MOLFILES_body fs shown p =
     ([value_element "molInput" (molInput p)],
      Some (ValueError ("'" +:+ molInputFormat p +:+
              "' is not a valid molInputFormat. Formats:" +:+ shown)))) ∨
  (molInput p = "file" ∧ ∃ f, molFile p = Some f ∧
   MOLFILES_body fs shown p =
     ([value_element "molInput" (molInput p); value_element "molFile" f], None)) ∨
  (molInput p = "file" ∧ molFile p = None ∧
   MOLFILES_body fs shown p =
     ([value_element "molInput" (molInput p)],
      Some (TypeError "Argument must be bytes or unicode, got 'NoneType'"))) ∨
  (molInput p ≠ "stdin" ∧ molInput p ≠ "file" ∧
   MOLFILES_body fs shown p =
     ([value_element "molInput" (molInput p)],
      Some (ValueError "Enter a valid molInput: 'stdin' or 'file'"))).
Proof.
  unfold MOLFILES_body.
  destruct (String.eqb_spec (molInput p) "stdin") as [Hs|Hs].
  - case_bool_decide as Hf.
    + left. done.
    + right; left. done.
  - destruct (String.eqb_spec (molInput p) "file") as [Hf|Hf].
    + destruct (molFile p) as [f|] eqn:Ef.
      * right; right; left. split; [done|]. by exists f.
      * right; right; right; left. done.
    + right; right; right; right. done.
Qed.

Lemma effective_sections7 p dir :
  sections7 (effective p) dir =
  block [SubElement "OPTIONS" (OPTIONS_body7 (effective p));
         SubElement "DESCRIPTORS"
           (blocks_loop 30 "block id must be in range 1 to 30." (blocks p));
         SubElement "MOLFILES"
           (MOLFILES_body formats7
              "['SYBYL','MDL','HYPERCHEM','SMILES','CML','MACROMODEL']" p);
         SubElement "OUTPUT"
           (block [append (value_element "knimemode" (_bool_formatter (knimemode p)));
                   OUTPUT_body p dir]);
         EXTERNAL_section p].
Proof.
  unfold effective. destruct (version p =? 7); [|done].
  destruct (String.eqb (Missing_String p) "NaN"); reflexivity.
Qed.

Lemma effective_Weights p : Weights (effective p) = Weights p.
Proof.
  unfold effective. destruct (version p =? 7); [|done].
  destruct (String.eqb (Missing_String p) "NaN"); reflexivity.
Qed.

Lemma effective_version p : version (effective p) = version p.
Proof.
  unfold effective. destruct (version p =? 7); [|done].
  destruct (String.eqb (Missing_String p) "NaN"); reflexivity.
Qed.

Section Properties.

Variable std_datetime_str : string -> string.

Lemma fresh_tree_exn p dir :
  supported (version p) → (fresh_tree std_datetime_str p dir).2 = fresh_exn p.
Proof.
  intros Hv. unfold fresh_tree, fresh_exn, Weights_part, blocks_part,
    MOLFILES_part, block_limit, block_message.
  destruct Hv as [Hv|Hv]; rewrite Hv; cbn [Z.eqb Pos.eqb].
  - unfold dragon6, sections6. cbn [snd].
    rewrite (proj1 (sections_shape _ _ _ _ _)).
    by rewrite OPTIONS_body6_exn, OUTPUT_body_exn.
  - unfold dragon7. cbn [snd]. rewrite effective_sections7.
    rewrite (proj1 (sections_shape _ _ _ _ _)).
    rewrite OPTIONS_body7_exn, effective_Weights.
    unfold block, and_then, append. by rewrite OUTPUT_body_exn.
Qed.

Lemma fresh_tree_children p dir :
  supported (version p) →
  children (fresh_tree std_datetime_str p dir).1 = fresh_children p dir.
Proof.
  intros Hv. unfold fresh_tree, fresh_children, Weights_part, blocks_part,
    MOLFILES_part, OPTIONS_part, OUTPUT_part, block_limit, block_message.
  destruct Hv as [Hv|Hv]; rewrite Hv; cbn [Z.eqb Pos.eqb].
  - unfold dragon6, sections6. cbn [fst children].
    rewrite (proj2 (sections_shape _ _ _ _ _)).
    by rewrite OPTIONS_body6_exn, OUTPUT_body_exn.
  - unfold dragon7. cbn [fst children]. rewrite effective_sections7.
    rewrite (proj2 (sections_shape _ _ _ _ _)).
    rewrite OPTIONS_body7_exn, effective_Weights.
    unfold block, and_then, append.
    pose proof (OUTPUT_body_exn p dir) as Hu.
    destruct (OUTPUT_body p dir) as [us [e|]]; [done|]. reflexivity.
Qed.


(** [script_wizard('new', ...)] once the directory argument is known to
    be non-empty. *)
Lemma script_wizard_new outdir self w :
  outdir ≠ "" →
  script_wizard std_datetime_str "new" outdir self w =
    let dir := stored_directory outdir in
    let self := set_output_directory dir self in
    let w := ensure_directory dir w in
    if version (args self) =? 6 then
      finish_fresh (dragon6 std_datetime_str (args self) dir) self w
    else if version (args self) =? 7 then
      let self := rewrite_Missing_String self in
      finish_fresh (dragon7 std_datetime_str (args self) dir) self w
    else
      read_data_path self
        (warnings_warn unsupported_message w).
Proof.
  intros Hne. unfold script_wizard.
  destruct (last_char outdir) as [c|] eqn:E.
  - rewrite (stored_directory_eqb _ _ E). reflexivity.
  - by apply last_char_None in E.
Qed.

(** A fresh build of a supported version, in full: an exception met while
    building leaves the partial tree in the object and the world as it
    was (but for the directory); otherwise the script is written, and the
    data path is read back if the save-file path was serialized. *)
Lemma fresh_build outdir self w :
  outdir ≠ "" → supported (version (args self)) →
  script_wizard std_datetime_str "new" outdir self w =
    let dir := stored_directory outdir in
    match fresh_exn (args self) with
    | Some e => (built_self std_datetime_str outdir self, ensure_directory dir w, Raise e)
    | None =>
        if SaveFile (args self) then
          (set_data_path (dir +:+ SaveFilePath (args self))
             (saved_self std_datetime_str outdir self),
           saved_world std_datetime_str outdir self w, Return)
        else
          (saved_self std_datetime_str outdir self, saved_world std_datetime_str outdir self w,
           Raise (AttributeError "no such child: SaveFilePath"))
    end.
Proof.
  intros Hne Hv. rewrite script_wizard_new by done. cbn zeta.
  set (dir := stored_directory outdir).
  assert (finish_fresh (fresh_tree std_datetime_str (args self) dir)
            (set_args (effective (args self)) (set_output_directory dir self))
            (ensure_directory dir w) = 
          match fresh_exn (args self) with
          | Some e => (built_self std_datetime_str outdir self, ensure_directory dir w, Raise e)
          | None =>
              if SaveFile (args self) then
                (set_data_path (dir +:+ SaveFilePath (args self))
             (saved_self std_datetime_str outdir self),
                 saved_world std_datetime_str outdir self w, Return)
              else
                (saved_self std_datetime_str outdir self,
                 saved_world std_datetime_str outdir self w,
                 Raise (AttributeError "no such child: SaveFilePath"))
          end) as Hfin.
  { unfold finish_fresh.
    pose proof (fresh_tree_exn (args self) dir Hv) as Hx.
    pose proof (fresh_tree_children (args self) dir Hv) as Hc.
    fold dir. unfold saved_self, saved_world, built_self. fold dir.
    destruct (fresh_tree std_datetime_str (args self) dir) as [tree x]. cbn [fst snd] in *.
    subst x. destruct (fresh_exn (args self)) as [e|] eqn:Hx; [done|].
    unfold _save_script, read_data_path.
    cbn [dragon set_dragon set_drs_name output_directory set_args
         set_output_directory].
    unfold find_child at 1. rewrite Hc. unfold fresh_children.
    unfold fresh_exn in Hx.
    destruct (Weights_part (args self)).2; [done|].
    destruct (blocks_part (args self)).2; [done|].
    destruct (MOLFILES_part (args self)).2; [done|].
    cbn [List.find tag String.eqb Ascii.eqb Bool.eqb].
    unfold OUTPUT_part.
    destruct Hv as [Hv|Hv]; rewrite Hv; cbn [Z.eqb Pos.eqb].
    - pose proof (OUTPUT_body_SaveFilePath (args self) dir ∅ []) as Hs.
      cbn [app] in Hs. rewrite Hs by constructor.
      destruct (SaveFile (args self)); reflexivity.
    - pose proof (OUTPUT_body_SaveFilePath (args self) dir ∅
        [value_element "knimemode" (_bool_formatter (knimemode (args self)))])
        as Hs.
      cbn [app] in Hs. rewrite Hs by (repeat constructor; discriminate).
      destruct (SaveFile (args self)); reflexivity. }
  unfold fresh_tree in Hfin.
  destruct Hv as [Hv|Hv]; cbn [args set_output_directory]; rewrite Hv in *;
    cbn [Z.eqb Pos.eqb] in *.
  - rewrite <- Hfin. unfold effective. rewrite Hv. cbn [Z.eqb Pos.eqb].
    reflexivity.
  - rewrite <- Hfin. unfold rewrite_Missing_String, effective.
    cbn [args set_output_directory]. rewrite Hv. cbn [Z.eqb Pos.eqb].
    destruct (String.eqb (Missing_String (args self)) "NaN"); reflexivity.
Qed.

(** ** What every call leaves behind *)

Lemma read_data_path_inv self w self' w' o :
  read_data_path self w = (self', w', o) →
  w' = w ∧ args self' = args self ∧ output_directory self' = output_directory self ∧
  dragon self' = dragon self ∧ drs_name self' = drs_name self ∧
  match o with
  | Return => ∃ doc, dragon self = Some doc ∧ is_Some (data_path self') ∧
                data_path self' = section_value "OUTPUT" "SaveFilePath" doc
  | Raise (AttributeError _) | Raise (KeyError _) => self' = self
  | Raise _ => False
  end.
Proof.
  unfold read_data_path, section_value, value_of.
  destruct (dragon self) as [doc|] eqn:Ed; [|by intros [= <- <- <-]].
  destruct (find_child "OUTPUT" doc) as [out|] eqn:Eo; [|by intros [= <- <- <-]].
  destruct (find_child "SaveFilePath" out) as [sfp|] eqn:Es;
    [|by intros [= <- <- <-]].
  cbn. destruct (attrib sfp !! "value") as [v|] eqn:Ev; intros [= <- <- <-].
  - split_and!; try done. exists doc. rewrite Eo. cbn. rewrite Es. cbn.
    rewrite Ev. split_and!; eauto.
  - done.
Qed.

Lemma load_script_inv script self w self' w' o :
  load_script script self w = (self', w', o) →
  files w' = files w ∧ dirs w' = dirs w ∧
  output_directory self' = output_directory self ∧ args self' = args self.
Proof.
  unfold load_script. intros H.
  repeat match type of H with
         | context [match ?x with _ => _ end] => destruct x eqn:?
         end;
    try (injection H as <- <- <-; done);
    apply read_data_path_inv in H as (-> & -> & -> & _); done.
Qed.

(** The directory is stored before anything else is looked at. *)
Lemma stored_directory_kept script outdir self w :
  outdir ≠ "" →
  output_directory (script_wizard std_datetime_str script outdir self w).1.1
  = Some (stored_directory outdir).
Proof.
  intros Hne. unfold script_wizard.
  destruct (last_char outdir) as [c|] eqn:E; [|by apply last_char_None in E].
  rewrite (stored_directory_eqb _ _ E).
  set (dir := stored_directory outdir). cbn zeta.
  assert (∀ b s x, output_directory s = Some dir →
            output_directory (finish_fresh b s x).1.1 = Some dir) as Hfin.
  { intros [tree [e|]] s x Hs; unfold finish_fresh; cbn [fst snd]; [done|].
    unfold _save_script. cbn [dragon set_dragon output_directory set_drs_name].
    rewrite Hs.
    destruct (read_data_path _ _) as [[s' x'] o] eqn:Er.
    apply read_data_path_inv in Er as (_ & _ & Ho & _). cbn [fst].
    by rewrite Ho. }
  destruct (String.eqb script "new").
  - destruct (version _ =? 6); [by apply Hfin|].
    destruct (version _ =? 7).
    + apply Hfin. unfold rewrite_Missing_String.
      by destruct (String.eqb _ _).
    + destruct (read_data_path _ _) as [[s' x'] o] eqn:Er.
      apply read_data_path_inv in Er as (_ & _ & Ho & _). cbn [fst].
      by rewrite Ho.
  - destruct (load_script _ _ _) as [[s' x'] o] eqn:El.
    apply load_script_inv in El as (_ & _ & Ho & _). cbn [fst].
    by rewrite Ho.
Qed.

(** A fresh build of a version that is not supported, on an object that
    holds no tree yet: the warning is issued, nothing is built or written,
    and line 339 fails on the missing attribute. *)
Lemma unsupported_version outdir self w :
  outdir ≠ "" → ¬ supported (version (args self)) → dragon self = None →
  script_wizard std_datetime_str "new" outdir self w =
    (set_output_directory (stored_directory outdir) self,
     warnings_warn unsupported_message
       (ensure_directory (stored_directory outdir) w),
     Raise (AttributeError "'Dragon' object has no attribute 'dragon'")).
Proof.
  intros Hne Hv Hd. rewrite script_wizard_new by done. cbn zeta.
  cbn [args set_output_directory].
  destruct (Z.eqb_spec (version (args self)) 6) as [E|_]; [by destruct Hv; left|].
  destruct (Z.eqb_spec (version (args self)) 7) as [E|_]; [by destruct Hv; right|].
  unfold read_data_path. cbn [dragon set_output_directory]. by rewrite Hd.
Qed.

Lemma ensure_directory_files dir w : files (ensure_directory dir w) = files w.
Proof. unfold ensure_directory. by destruct (os_path_exists dir w). Qed.

Lemma ensure_directory_warnings dir w :
  warnings (ensure_directory dir w) = warnings w.
Proof. unfold ensure_directory. by destruct (os_path_exists dir w). Qed.

(** ** Which exception a fresh build meets *)

Lemma MOLFILES_part_cases p :
  supported (version p) →
  (molInput p = "stdin" ∧ molInputFormat p ∈ formats (version p) ∧
   MOLFILES_part p =
     ([value_element "molInput" (molInput p);
       value_element "molInputFormat" (molInputFormat p)], None)) ∨
  (molInput p = "stdin" ∧ (molInputFormat p ∉ formats (version p)) ∧
   MOLFILES_part p =
     ([value_element "molInput" (molInput p)],
      Some (ValueError (format_message (version p) (molInputFormat p))))) ∨
  (molInput p = "file" ∧ ∃ f, molFile p = Some f ∧
   MOLFILES_part p =
     ([value_element "molInput" (molInput p); value_element "molFile" f], None)) ∨
  (molInput p = "file" ∧ molFile p = None ∧
   MOLFILES_part p =
     ([value_element "molInput" (molInput p)],
      Some (TypeError "Argument must be bytes or unicode, got 'NoneType'"))) ∨
  (molInput p ≠ "stdin" ∧ molInput p ≠ "file" ∧
   MOLFILES_part p =
     ([value_element "molInput" (molInput p)],
      Some (ValueError "Enter a valid molInput: 'stdin' or 'file'"))).
Proof.
  intros [Hv|Hv]; unfold MOLFILES_part, formats, format_message; rewrite Hv;
    cbn [Z.eqb Pos.eqb]; apply MOLFILES_body_cases.
Qed.

Lemma Weights_part_valid p :
  weights_valid p → Weights_part p = (weight_element <$> Weights p, None).
Proof. apply Weights_loop_valid. Qed.

Lemma blocks_part_valid p :
  blocks_valid p → blocks_part p = (block_element <$> blocks p, None).
Proof. apply blocks_loop_valid. Qed.

Lemma MOLFILES_part_valid p :
  supported (version p) → molfiles_valid p → (MOLFILES_part p).2 = None.
Proof.
  intros Hv Hm.
  destruct (MOLFILES_part_cases p Hv)
    as [(_ & _ & ->)|[(Hs & Hf & _)|[(_ & f & _ & ->)|[(Hs & Hf & _)|(Hs & Hf & _)]]]];
    try done; destruct Hm as [[? ?]|[? [? ?]]]; congruence.
Qed.




(** ** Reading a complete fresh tree *)

Lemma value_of_value_element t v : value_of (value_element t v) = Some v.
Proof. apply lookup_singleton_eq. Qed.

Lemma section_value_found section child doc s :
  find_child section doc = Some s →
  section_value section child doc = find_child child s ≫= value_of.
Proof. unfold section_value. by intros ->. Qed.

Lemma find_OUTPUT p dir tree :
  fresh_exn p = None → children tree = fresh_children p dir →
  find_child "OUTPUT" tree = Some (Element "OUTPUT" ∅ (OUTPUT_part p dir)).
Proof.
  intros Hx Hc. unfold find_child, fresh_exn in *. rewrite Hc.
  unfold fresh_children.
  destruct (Weights_part p).2; [done|].
  destruct (blocks_part p).2; [done|].
  destruct (MOLFILES_part p).2; [done|].
  reflexivity.
Qed.

Lemma find_OPTIONS p dir tree :
  children tree = fresh_children p dir →
  find_child "OPTIONS" tree = Some (Element "OPTIONS" ∅ (OPTIONS_part p).1).
Proof. intros Hc. unfold find_child. rewrite Hc. reflexivity. Qed.


Lemma section_value_SaveFile p dir tree :
  supported (version p) → fresh_exn p = None →
  children tree = fresh_children p dir →
  section_value "OUTPUT" "SaveFile" tree = Some (_bool_formatter (SaveFile p)).
Proof.
  intros Hv Hx Hc.
  rewrite (section_value_found _ _ _ _ (find_OUTPUT p dir tree Hx Hc)).
  unfold OUTPUT_part.
  destruct Hv as [Hv|Hv]; rewrite Hv; cbn [Z.eqb Pos.eqb].
  - pose proof (OUTPUT_body_SaveFile p dir ∅ []) as Hs.
    cbn [app] in Hs. rewrite Hs by constructor.
    apply value_of_value_element.
  - pose proof (OUTPUT_body_SaveFile p dir ∅
      [value_element "knimemode" (_bool_formatter (knimemode p))]) as Hs.
    cbn [app] in Hs. rewrite Hs by (repeat constructor; discriminate).
    apply value_of_value_element.
Qed.


Lemma fresh_children_sections p dir :
  fresh_exn p = None →
  ∃ o d m u,
    fresh_children p dir =
      [Element "OPTIONS" ∅ o; Element "DESCRIPTORS" ∅ d;
       Element "MOLFILES" ∅ m; Element "OUTPUT" ∅ u] ++ (EXTERNAL_section p).1 ∧
    (EXTERNAL_section p).2 = None.
Proof.
  unfold fresh_exn, fresh_children.
  destruct (Weights_part p).2; [done|].
  destruct (blocks_part p).2; [done|].
  destruct (MOLFILES_part p).2; [done|].
  cbn. intros He. by eexists _, _, _, _.
Qed.

(** ** Loading *)


Lemma read_data_path_Return self w doc v :
  dragon self = Some doc →
  section_value "OUTPUT" "SaveFilePath" doc = Some v →
  read_data_path self w = (set_data_path v self, w, Return).
Proof.
  intros Hd. unfold section_value, read_data_path, value_of. rewrite Hd.
  destruct (find_child "OUTPUT" doc) as [out|]; [|done]. cbn.
  destruct (find_child "SaveFilePath" out) as [sfp|]; [|done]. cbn.
  by intros ->.
Qed.

Lemma script_wizard_load script outdir self w :
  outdir ≠ "" → script ≠ "new" →
  script_wizard std_datetime_str script outdir self w =
    load_script script (set_output_directory (stored_directory outdir) self)
      (ensure_directory (stored_directory outdir) w).
Proof.
  intros Hne Hs. unfold script_wizard.
  destruct (last_char outdir) as [c|] eqn:E; [|by apply last_char_None in E].
  rewrite (stored_directory_eqb _ _ E). cbn zeta.
  apply String.eqb_neq in Hs. by rewrite Hs.
Qed.

Lemma mandatory_check (reported : list string) :
  forallb (fun m => bool_decide (m ∈ reported)) mandatory_nodes = true
  ↔ ∀ m, m ∈ mandatory_nodes → m ∈ reported.
Proof.
  rewrite forallb_forall. split.
  - intros H m Hm. apply list_elem_of_In in Hm.
    specialize (H m Hm). by apply bool_decide_eq_true in H.
  - intros H m Hm. apply bool_decide_eq_true, H. by apply list_elem_of_In.
Qed.

(** ** The claims *)

(** C9 (amended).  For a non-empty directory argument the stored
    directory is the argument itself when it ends with the separator and
    the argument followed by one separator when it does not; it always ends
    with the separator, and with exactly one unless the argument itself
    ends with several.  This holds whatever the call does afterwards. *)
Theorem C9_stored_directory script outdir self w :
  outdir ≠ "" →
  output_directory (script_wizard std_datetime_str script outdir self w).1.1
    = Some (stored_directory outdir) ∧
  last_char (stored_directory outdir) = Some "/"%char ∧
  (last_char outdir ≠ Some "/"%char → stored_directory outdir = outdir +:+ "/") ∧
  (last_char outdir = Some "/"%char → stored_directory outdir = outdir) ∧
  trailing_seps (stored_directory outdir) = Nat.max 1 (trailing_seps outdir).
Proof.
  intros Hne. split_and!.
  - by apply stored_directory_kept.
  - apply stored_directory_last.
  - intros Hl. unfold stored_directory.
    destruct (last_char outdir) as [c|]; [|done].
    destruct c as [[] [] [] [] [] [] [] []]; try reflexivity. done.
  - intros Hl. unfold stored_directory. by rewrite Hl.
  - apply trailing_seps_stored.
Qed.

(** C1.  A fresh build of version 8 on a new object with the default
    options, in any world: the warning is issued, no file is written and
    no tree is created, but the call does not return: line 339 raises
    AttributeError. *)
Theorem C1_unsupported_version_raises w :
  ∃ self' w',
    script_wizard std_datetime_str "new" "./" (Dragon__init__ (set_version 8 defaults)) w
      = (self', w', Raise (AttributeError "'Dragon' object has no attribute 'dragon'")) ∧
    warnings w' = warnings w ++
      [unsupported_message] ∧
    files w' = files w ∧ dragon self' = None.
Proof.
  rewrite unsupported_version; [|done|intros [?|?]; done|done].
  eexists _, _. split; [reflexivity|].
  cbn [warnings files warnings_warn dragon set_output_directory].
  by rewrite ensure_directory_files, ensure_directory_warnings.
Qed.

(** C2 (amended).  Whenever [script_wizard] returns, fresh or loaded, the
    stored data path is the value attribute of the element
    OUTPUT/SaveFilePath of the tree the object holds; for a fresh build of
    a supported version it is the stored directory followed by the
    save-file path option, and the tree is the one written to the script
    file. *)
Theorem C2_data_path_read_back script outdir self w self' w' :
  script_wizard std_datetime_str script outdir self w = (self', w', Return) →
  ∃ doc,
    dragon self' = Some doc ∧ is_Some (data_path self') ∧
    data_path self' = section_value "OUTPUT" "SaveFilePath" doc ∧
    (script = "new" → supported (version (args self)) →
     data_path self'
       = Some (stored_directory outdir +:+ SaveFilePath (args self)) ∧
     persisted (stored_directory outdir) doc w').
Proof.
  intros Hrun.
  assert (outdir ≠ "") as Hne.
  { intros ->. unfold script_wizard in Hrun. cbn [last_char] in Hrun.
    congruence. }
  assert (∃ doc, dragon self' = Some doc ∧ is_Some (data_path self') ∧
            data_path self' = section_value "OUTPUT" "SaveFilePath" doc)
    as (doc & Hd & Hp & Hv).
  { revert Hrun. unfold script_wizard.
    destruct (last_char outdir) as [c|]; [|done]. cbn zeta.
    assert (∀ s x, read_data_path s x = (self', w', Return) →
              ∃ doc, dragon self' = Some doc ∧ is_Some (data_path self') ∧
                data_path self' = section_value "OUTPUT" "SaveFilePath" doc)
      as Hread.
    { intros s x Hr. apply read_data_path_inv in Hr
        as (_ & _ & _ & Hd & _ & doc & Hs & ? & ?).
      exists doc. rewrite Hd. done. }
    assert (∀ b s x, finish_fresh b s x = (self', w', Return) →
              ∃ doc, dragon self' = Some doc ∧ is_Some (data_path self') ∧
                data_path self' = section_value "OUTPUT" "SaveFilePath" doc)
      as Hfin.
    { intros [tree [e|]] s x; unfold finish_fresh; cbn [fst snd]; [done|].
      destruct (_save_script _ _) as [[s1 x1] [e|]]; [done|]. apply Hread. }
    destruct (String.eqb script "new").
    - destruct (version _ =? 6); [apply Hfin|].
      destruct (version _ =? 7); [apply Hfin|apply Hread].
    - unfold load_script.
      intros H.
      repeat match type of H with
             | context [match ?x with _ => _ end] => destruct x eqn:?
             end; first [done | by eapply Hread]. }
  exists doc. split_and!; try done.
  intros -> Hsup. rewrite fresh_build in Hrun by done. cbn zeta in Hrun.
  destruct (fresh_exn (args self)); [done|].
  destruct (SaveFile (args self)); [|done].
  injection Hrun as <- <-. cbn in Hd. injection Hd as <-.
  split; [reflexivity|]. unfold persisted, saved_world. cbn [files write_file].
  apply lookup_insert_eq.
Qed.




(** C7.  When a fresh build of version 6 or 7 returns, the tree it wrote
    has an EXTERNAL section exactly when the external option is true; the
    section then holds fileName, delimiter, consecutiveDelimiter and
    MissingValue, in that order and with the values of the options; with
    the option false there is no such section. *)
Theorem C7_external_section outdir self w self' w' :
  supported (version (args self)) →
  script_wizard std_datetime_str "new" outdir self w = (self', w', Return) →
  ∃ doc,
    dragon self' = Some doc ∧ persisted (stored_directory outdir) doc w' ∧
    (has_section "EXTERNAL" doc ↔ external (args self) = true) ∧
    (external (args self) = true →
     ∃ fn, fileName (args self) = Some fn ∧
       find_child "EXTERNAL" doc
         = Some (Element "EXTERNAL" ∅ (EXTERNAL_fields (args self) fn))) ∧
    (external (args self) = false → find_child "EXTERNAL" doc = None).
Proof.
  intros Hv Hrun.
  assert (outdir ≠ "") as Hne.
  { intros ->. unfold script_wizard in Hrun. cbn [last_char] in Hrun.
    congruence. }
  rewrite fresh_build in Hrun by done. cbn zeta in Hrun.
  destruct (fresh_exn (args self)) eqn:Hx; [done|].
  destruct (SaveFile (args self)); [|done].
  injection Hrun as <- <-.
  exists (fresh_tree std_datetime_str (args self) (stored_directory outdir)).1.
  split; [done|]. split.
  { unfold persisted, saved_world. cbn [files write_file]. apply lookup_insert_eq. }
  pose proof (fresh_tree_children (args self) (stored_directory outdir) Hv) as Hc.
  destruct (fresh_children_sections (args self) (stored_directory outdir) Hx)
    as (o & d & m & u & Hsec & He).
  unfold has_section, find_child. rewrite Hc, Hsec.
  destruct (EXTERNAL_section_cases (args self))
    as [(Hext & Hs)|[(Hext & fn & Hfn & Hs)|(Hext & Hfn & e & xs & Hs)]];
    rewrite Hs in *; cbn [fst snd app fmap list_fmap tag] in *.
  - rewrite Hext. split_and!; [|done|done].
    split; [|done]. rewrite !elem_of_cons, elem_of_nil.
    intros [?|[?|[?|[?|[]]]]]; discriminate.
  - rewrite Hext. split_and!; [|by exists fn|done].
    split; [done|]. intros _. rewrite !elem_of_cons. auto 10.
  - done.
Qed.

(** C8.  When a fresh build raises ValueError (the exception of the
    weight, block id, input format and input source checks), the files of
    the world are what they were before the call: no script has been
    written, and the object has been given no script name. *)
Theorem C8_validation_error_writes_nothing outdir self w self' w' msg :
  script_wizard std_datetime_str "new" outdir self w = (self', w', Raise (ValueError msg)) →
  files w' = files w ∧ drs_name self' = drs_name self.
Proof.
  intros Hrun.
  assert (outdir ≠ "") as Hne.
  { intros ->. unfold script_wizard in Hrun. cbn [last_char] in Hrun.
    congruence. }
  destruct (decide (supported (version (args self)))) as [Hv|Hv].
  - rewrite fresh_build in Hrun by done. cbn zeta in Hrun.
    destruct (fresh_exn (args self)).
    + injection Hrun as <- <- _. split; [apply ensure_directory_files|done].
    + destruct (SaveFile (args self)); congruence.
  - rewrite script_wizard_new in Hrun by done. cbn zeta in Hrun.
    cbn [args set_output_directory] in Hrun.
    destruct (Z.eqb_spec (version (args self)) 6) as [E|_]; [by destruct Hv; left|].
    destruct (Z.eqb_spec (version (args self)) 7) as [E|_]; [by destruct Hv; right|].
    apply read_data_path_inv in Hrun as (_ & _ & _ & _ & _ & []).
Qed.



End Properties.

(** ** Concrete runs *)

Example default_run_returns :
  default_run.2 = Return ∧
  data_path default_run.1.1 = Some "./Dragon_descriptors.txt" ∧
  drs_name default_run.1.1 = Some "Dragon_script.drs" ∧
  warnings default_run.1.2 = [].
Proof. vm_compute. done. Qed.

Example example7_document :
  example7_run.2 = Return ∧
  data_path example7_run.1.1 = Some "out/Dragon_descriptors.txt" ∧
  ∃ doc, dragon example7_run.1.1 = Some doc ∧
    find_child "DESCRIPTORS" doc
      = Some (Element "DESCRIPTORS" ∅ (block_element <$> [1; 2; 3])) ∧
    (o ← find_child "OPTIONS" doc; find_child "Weights" o)
      = Some (Element "Weights" ∅ (weight_element <$> ["Mass"; "VdWVolume"]%string)) ∧
    find_child "MOLFILES" doc
      = Some (Element "MOLFILES" ∅
                [value_element "molInput" "stdin";
                 value_element "molInputFormat" "SMILES"]).
Proof.
  split; [by vm_compute|]. split; [by vm_compute|].
  eexists. split; [by vm_compute|]. split_and!; by vm_compute.
Qed.

Lemma C9_witness :
  ("out" : string) ≠ "" ∧
  output_directory
    (script_wizard example_clock "new" "out" (Dragon__init__ defaults) empty_world).1.1
    = Some "out/" ∧
  trailing_seps "out/" = 1%nat.
Proof.
  assert (("out" : string) ≠ "") as H by discriminate.
  split; [exact H|].
  destruct (C9_stored_directory example_clock "new" "out"
              (Dragon__init__ defaults) empty_world H) as (H1 & _ & _ & _ & H5).
  split; [exact H1|exact H5].
Defined.

(** C9 as stated fails: the argument out// is stored as it is, and ends
    with two separators. *)
Lemma C9_counterexample :
  output_directory
    (script_wizard example_clock "new" "out//" (Dragon__init__ defaults) empty_world).1.1
    = Some "out//" ∧
  trailing_seps "out//" = 2%nat ∧ trailing_seps "out//" ≠ 1%nat.
Proof. split; [by vm_compute|]. split; [reflexivity|discriminate]. Qed.

Lemma C2_witness :
  default_run = (default_run.1.1, default_run.1.2, Return) ∧
  data_path default_run.1.1 = Some "./Dragon_descriptors.txt".
Proof.
  assert (default_run = (default_run.1.1, default_run.1.2, Return)) as H
    by (vm_compute; reflexivity).
  split; [exact H|].
  destruct (C2_data_path_read_back example_clock "new" "./"
              (Dragon__init__ defaults) empty_world _ _ H)
    as (doc & _ & _ & _ & Hnew).
  destruct (Hnew eq_refl (or_introl eq_refl)) as [Hp _]. exact Hp.
Defined.

(** C2 as stated fails: in the default build the element OUTPUT/SaveFile
    carries the value true, while the stored data path is the value of
    OUTPUT/SaveFilePath. *)
Lemma C2_counterexample :
  default_run.2 = Return ∧
  ∃ doc, dragon default_run.1.1 = Some doc ∧
    section_value "OUTPUT" "SaveFile" doc = Some "true" ∧
    data_path default_run.1.1 = Some "./Dragon_descriptors.txt" ∧
    data_path default_run.1.1 ≠ section_value "OUTPUT" "SaveFile" doc.
Proof.
  split; [by vm_compute|]. eexists. split; [by vm_compute|].
  split_and!; [by vm_compute..|]. vm_compute. discriminate.
Qed.








Lemma C7_witness :
  with_external_run = (with_external_run.1.1, with_external_run.1.2, Return) ∧
  ∃ doc,
    dragon with_external_run.1.1 = Some doc ∧
    has_section "EXTERNAL" doc ∧
    find_child "EXTERNAL" doc
      = Some (Element "EXTERNAL" ∅
                [value_element "fileName" "external.csv";
                 value_element "delimiter" ",";
                 value_element "consecutiveDelimiter" "false";
                 value_element "MissingValue" "NaN"]).
Proof.
  assert (with_external_run
          = (with_external_run.1.1, with_external_run.1.2, Return)) as H
    by (vm_compute; reflexivity).
  split; [exact H|].
  destruct (C7_external_section example_clock "out/" with_external empty_world
              _ _ (or_introl eq_refl) H)
    as (doc & Hd & _ & Hiff & Hext & _).
  exists doc. split; [exact Hd|]. split; [by apply Hiff|].
  destruct (Hext eq_refl) as (fn & Hfn & Hfind).
  injection Hfn as <-. exact Hfind.
Defined.

Lemma C8_witness :
  bad_weight_run
    = (bad_weight_run.1.1, bad_weight_run.1.2,
       Raise (ValueError "'Volume' is not a valid weight type.")) ∧
  files bad_weight_run.1.2 = ∅ ∧ drs_name bad_weight_run.1.1 = None.
Proof.
  assert (bad_weight_run
          = (bad_weight_run.1.1, bad_weight_run.1.2,
             Raise (ValueError "'Volume' is not a valid weight type."))) as H
    by (vm_compute; reflexivity).
  split; [exact H|].
  exact (C8_validation_error_writes_nothing example_clock "out" bad_weight
           empty_world _ _ _ H).
Defined.


(** ** More of the module: properties beyond the claims *)

Section Extras.

Variable std_datetime_str : string -> string.

(** *** Frames: what a call leaves alone *)

Lemma read_data_path_frame self w self' w' o :
  read_data_path self w = (self', w', o) →
  w' = w ∧ args self' = args self ∧
  output_directory self' = output_directory self ∧
  dragon self' = dragon self ∧ drs self' = drs self ∧
  drs_name self' = drs_name self.
Proof.
  unfold read_data_path. intros H.
  repeat match type of H with
         | context [match ?x with _ => _ end] => destruct x eqn:?
         end;
    injection H as <- <- <-; done.
Qed.

Lemma finish_fresh_frame b self w dir self' w' o :
  output_directory self = Some dir →
  finish_fresh b self w = (self', w', o) →
  dirs w' = dirs w ∧ warnings w' = warnings w ∧
  (∀ path, path ≠ dir +:+ "Dragon_script.drs" →
           files w' !! path = files w !! path) ∧
  args self' = args self ∧ drs self' = drs self ∧
  output_directory self' = Some dir.
Proof.
  intros Hd. destruct b as [tree [e|]]; unfold finish_fresh; cbn [fst snd].
  - intros [= <- <- <-]. done.
  - unfold _save_script.
    cbn [dragon set_dragon output_directory set_drs_name]. rewrite Hd.
    intros H. apply read_data_path_frame in H as (-> & -> & -> & _ & -> & _).
    split_and!; try done.
    intros path Hp. cbn [files write_file]. by rewrite lookup_insert_ne.
Qed.

Lemma load_script_frame script self w self' w' o :
  load_script script self w = (self', w', o) →
  files w' = files w ∧ dirs w' = dirs w ∧ args self' = args self ∧
  output_directory self' = output_directory self ∧
  drs_name self' = drs_name self.
Proof.
  unfold load_script. intros H.
  repeat match type of H with
         | context [match ?x with _ => _ end] => destruct x eqn:?
         end;
    try (injection H as <- <- <-; done);
    apply read_data_path_frame in H as (-> & -> & -> & _ & _ & ->); done.
Qed.

Lemma script_wizard_empty script self w :
  script_wizard std_datetime_str script "" self w
  = (self, w, Raise (IndexError "string index out of range")).
Proof. reflexivity. Qed.

(** Everything a call with a non-empty directory argument leaves alone. *)
Lemma script_wizard_frame script outdir self w self' w' o :
  outdir ≠ "" →
  script_wizard std_datetime_str script outdir self w = (self', w', o) →
  dirs w' = dirs (ensure_directory (stored_directory outdir) w) ∧
  (∀ path, path ≠ script_path outdir → files w' !! path = files w !! path) ∧
  (script ≠ "new" → files w' = files w) ∧
  (args self' = args self ∨
   (script = "new" ∧ version (args self) = 7 ∧
    Missing_String (args self) = "NaN" ∧
    args self' = set_Missing_String "na" (args self))) ∧
  (script = "new" → drs self' = drs self) ∧
  (script ≠ "new" → drs_name self' = drs_name self).
Proof.
  intros Hne. unfold script_wizard, script_path.
  destruct (last_char outdir) as [c|] eqn:E; [|by apply last_char_None in E].
  rewrite (stored_directory_eqb _ _ E).
  set (dir := stored_directory outdir). cbn zeta.
  destruct (String.eqb_spec script "new") as [->|Hs].
  - cbn [args set_output_directory].
    destruct (Z.eqb_spec (version (args self)) 6) as [E6|E6].
    + intros H. eapply finish_fresh_frame in H as (-> & _ & Hf & -> & -> & _);
        [|reflexivity].
      split_and!; try done.
      * intros path Hp. rewrite (Hf path Hp). by rewrite ensure_directory_files.
      * by left.
    + destruct (Z.eqb_spec (version (args self)) 7) as [E7|E7].
      * intros H. eapply finish_fresh_frame in H as (-> & _ & Hf & -> & -> & _).
        2:{ unfold rewrite_Missing_String. by destruct (String.eqb _ _). }
        split_and!; try done.
        -- intros path Hp. rewrite (Hf path Hp). by rewrite ensure_directory_files.
        -- unfold rewrite_Missing_String. cbn [args set_output_directory].
           destruct (String.eqb_spec (Missing_String (args self)) "NaN");
             [by right|by left].
        -- unfold rewrite_Missing_String. by destruct (String.eqb _ _).
      * intros H. apply read_data_path_frame in H as (-> & -> & _ & _ & -> & _).
        split_and!; try done.
        -- intros path _. cbn [files warnings_warn].
           by rewrite ensure_directory_files.
        -- by left.
  - intros H. apply load_script_frame in H as (Hf & -> & -> & _ & ->).
    rewrite Hf, ensure_directory_files. split_and!; try done. by left.
Qed.

(** *** Which fresh builds return *)

Lemma Weights_loop_None ws :
  (Weights_loop ws).2 = None → Forall (fun x => x ∈ weight_types) ws.
Proof.
  induction ws as [|x ws IH]; [constructor|].
  cbn [Weights_loop]. case_bool_decide as Hx; [|done].
  destruct (Weights_loop ws) as [xs [e|]]; [done|].
  intros _. constructor; [done|by apply IH].
Qed.

Lemma blocks_loop_None hi msg bs :
  (blocks_loop hi msg bs).2 = None → Forall (fun i => 1 ≤ i ≤ hi) bs.
Proof.
  induction bs as [|i bs IH]; [constructor|].
  cbn [blocks_loop]. destruct ((i <? 1) || (i >? hi)) eqn:Ei; [done|].
  destruct (blocks_loop hi msg bs) as [xs [e|]]; [done|].
  intros _. constructor; [lia|by apply IH].
Qed.

Lemma fresh_exn_None p :
  supported (version p) → fresh_exn p = None →
  weights_valid p ∧ blocks_valid p ∧ molfiles_valid p ∧
  (external p = true → is_Some (fileName p)).
Proof.
  intros Hv. unfold fresh_exn.
  destruct (Weights_part p).2 eqn:Hw; [done|].
  destruct (blocks_part p).2 eqn:Hb; [done|].
  destruct (MOLFILES_part p).2 eqn:Hm; [done|].
  cbn. intros He. split_and!.
  - by apply Weights_loop_None.
  - by eapply blocks_loop_None.
  - destruct (MOLFILES_part_cases p Hv)
      as [(Hs & Hf & _)|[(_ & _ & H)|[(Hs & f & Hf & _)|[(_ & _ & H)|(_ & _ & H)]]]];
      try (rewrite H in Hm; done).
    + by left.
    + right. split; [done|]. by rewrite Hf.
  - intros Ht. destruct (EXTERNAL_section_cases p)
      as [(Hf & _)|[(_ & fn & -> & _)|(_ & _ & e & xs & H)]]; [congruence|done|].
    rewrite H in He. done.
Qed.










(** X6.  A call changes none of the options of the object, with one
    exception: a fresh build under version 7 turns a Missing_String of NaN
    into na.  A fresh build leaves the name of a loaded script ([drs])
    alone, and loading leaves the name of a written script ([drs_name])
    alone. *)
Theorem X6_options_kept script outdir self w :
  let self' := (script_wizard std_datetime_str script outdir self w).1.1 in
  (args self' = args self ∨
   (script = "new" ∧ version (args self) = 7 ∧
    Missing_String (args self) = "NaN" ∧
    args self' = set_Missing_String "na" (args self))) ∧
  (script = "new" → drs self' = drs self) ∧
  (script ≠ "new" → drs_name self' = drs_name self).
Proof.
  destruct (decide (outdir = "")) as [->|Hne].
  - rewrite script_wizard_empty. cbn. split_and!; [by left|done..].
  - destruct (script_wizard std_datetime_str script outdir self w)
      as [[self' w'] o] eqn:Hrun. cbn [fst snd].
    by apply script_wizard_frame in Hrun as (_ & _ & _ & ? & ? & ?).
Qed.

(** *** The tree of a build that returned *)

(** What a fresh build of a supported version that returned has done. *)
Lemma returned_build outdir self w self' w' :
  supported (version (args self)) →
  script_wizard std_datetime_str "new" outdir self w = (self', w', Return) →
  outdir ≠ "" ∧ fresh_exn (args self) = None ∧ SaveFile (args self) = true ∧
  self' = set_data_path (stored_directory outdir +:+ SaveFilePath (args self))
            (saved_self std_datetime_str outdir self) ∧
  w' = saved_world std_datetime_str outdir self w ∧
  dragon self'
    = Some (fresh_tree std_datetime_str (args self) (stored_directory outdir)).1 ∧
  children (fresh_tree std_datetime_str (args self) (stored_directory outdir)).1
    = [Element "OPTIONS" ∅ (OPTIONS_part (args self)).1;
       Element "DESCRIPTORS" ∅ (block_element <$> blocks (args self));
       Element "MOLFILES" ∅ (MOLFILES_part (args self)).1;
       Element "OUTPUT" ∅ (OUTPUT_part (args self) (stored_directory outdir))]
      ++ (EXTERNAL_section (args self)).1.
Proof.
  intros Hv Hrun.
  assert (outdir ≠ "") as Hne.
  { intros ->. rewrite script_wizard_empty in Hrun. congruence. }
  rewrite fresh_build in Hrun by done. cbn zeta in Hrun.
  destruct (fresh_exn (args self)) eqn:Hx; [done|].
  destruct (SaveFile (args self)); [|done].
  injection Hrun as <- <-. split_and!; try done.
  rewrite (fresh_tree_children std_datetime_str _ _ Hv).
  apply fresh_exn_None in Hx as (Hw & Hb & Hm & He); [|done].
  unfold fresh_children.
  rewrite (Weights_part_valid _ Hw), (blocks_part_valid _ Hb),
    (MOLFILES_part_valid _ Hv Hm).
  reflexivity.
Qed.

Lemma find_Weights p a :
  supported (version p) →
  find_child "Weights" (Element "OPTIONS" a (OPTIONS_part p).1)
  = Some (Element "Weights" ∅ (Weights_part p).1).
Proof.
  intros Hv. unfold OPTIONS_part, Weights_part.
  destruct Hv as [Hv|Hv]; rewrite Hv; cbn [Z.eqb Pos.eqb].
  - unfold OPTIONS_body6. destruct (Weights_loop (Weights p)) as [? [?|]];
      reflexivity.
  - unfold OPTIONS_body7. rewrite effective_Weights.
    destruct (Weights_loop (Weights p)) as [? [?|]]; reflexivity.
Qed.

(** X7.  In the tree of a fresh build of version 6 or 7 that returned, the
    DESCRIPTORS section holds one block element per block id, and
    OPTIONS/Weights one weight element per weight, in the order of the
    lists and with repetitions kept; a block element carries the id in
    decimal and SelectAll true, a weight element the name. *)
Theorem X7_blocks_and_weights_serialized outdir self w self' w' :
  supported (version (args self)) →
  script_wizard std_datetime_str "new" outdir self w = (self', w', Return) →
  ∃ doc options,
    dragon self' = Some doc ∧
    find_child "DESCRIPTORS" doc
      = Some (Element "DESCRIPTORS" ∅
                ((fun i => Element "block"
                             {[ "id" := fmt_i i; "SelectAll" := "true" ]} [])
                 <$> blocks (args self))) ∧
    find_child "OPTIONS" doc = Some options ∧
    find_child "Weights" options
      = Some (Element "Weights" ∅
                ((fun x => Element "weight" {[ "name" := x ]} [])
                 <$> Weights (args self))).
Proof.
  intros Hv Hrun.
  destruct (returned_build _ _ _ _ _ Hv Hrun) as (Hne & Hx & _ & _ & _ & Hd & Hc).
  apply fresh_exn_None in Hx as (Hw & _); [|done].
  eexists _, _. split; [exact Hd|].
  unfold find_child at 1 2. rewrite Hc.
  split; [reflexivity|]. split; [reflexivity|].
  rewrite find_Weights by done. by rewrite (Weights_part_valid _ Hw).
Qed.

(** X8.  The tree of a fresh build of version 6 or 7 that returned has the
    root DRAGON, and its sections are OPTIONS, DESCRIPTORS, MOLFILES and
    OUTPUT in this order, followed by EXTERNAL when external variables
    are attached and by nothing otherwise. *)
Theorem X8_section_order outdir self w self' w' :
  supported (version (args self)) →
  script_wizard std_datetime_str "new" outdir self w = (self', w', Return) →
  ∃ doc,
    dragon self' = Some doc ∧ tag doc = "DRAGON" ∧
    tag <$> children doc
      = ["OPTIONS"; "DESCRIPTORS"; "MOLFILES"; "OUTPUT"]
        ++ (if external (args self) then ["EXTERNAL"] else []).
Proof.
  intros Hv Hrun.
  destruct (returned_build _ _ _ _ _ Hv Hrun) as (Hne & Hx & _ & _ & _ & Hd & Hc).
  eexists. split; [exact Hd|]. split.
  { unfold fresh_tree. by destruct (version (args self) =? 6). }
  rewrite Hc.
  destruct (fresh_children_sections (args self) (stored_directory outdir) Hx)
    as (_ & _ & _ & _ & _ & He).
  destruct (EXTERNAL_section_cases (args self))
    as [(Hext & Hs)|[(Hext & fn & Hfn & Hs)|(Hext & Hfn & e & xs & Hs)]];
    rewrite Hs in *; [by rewrite Hext|by rewrite Hext|done].
Qed.

(** [s.replace('-', '/')] keeps the length and leaves no dash. *)
Lemma replace_dash_length s :
  String.length (replace_dash s) = String.length s.
Proof. induction s as [|c s IH]; cbn; [done|]. by rewrite IH. Qed.

Lemma replace_dash_no_dash s :
  "-"%char ∉ String.list_ascii_of_string (replace_dash s).
Proof.
  induction s as [|c s IH]; cbn; [apply not_elem_of_nil|].
  apply not_elem_of_cons. split; [|done].
  destruct (Ascii.eqb_spec c "-"); [discriminate|congruence].
Qed.

(** X9.  The root of the tree of a fresh build of version 6 or 7 carries
    the version followed by .0.0, the script version 1 and the date of
    [std_datetime_str] with every dash turned into a slash (so the
    attribute has the length of that date and no dash); version 7 adds a
    description, version 6 has none. *)
Theorem X9_root_attributes outdir self w self' w' :
  supported (version (args self)) →
  script_wizard std_datetime_str "new" outdir self w = (self', w', Return) →
  ∃ doc date,
    dragon self' = Some doc ∧
    attrib doc !! "version" = Some (fmt_i (version (args self)) +:+ ".0.0") ∧
    attrib doc !! "script_version" = Some "1" ∧
    attrib doc !! "generation_date" = Some date ∧
    date = replace_dash (std_datetime_str "date") ∧
    String.length date = String.length (std_datetime_str "date") ∧
    ("-"%char ∉ String.list_ascii_of_string date) ∧
    attrib doc !! "description"
      = (if version (args self) =? 7 then Some "Dragon7 - FP1 - MD5270"
         else None).
Proof.
  intros Hv Hrun.
  destruct (returned_build _ _ _ _ _ Hv Hrun) as (_ & _ & _ & _ & _ & Hd & _).
  eexists _, _. split; [exact Hd|].
  assert (∀ k,
            attrib (fresh_tree std_datetime_str (args self)
                      (stored_directory outdir)).1 !! k
            = if version (args self) =? 6 then
                ({[ "version" := fmt_i (version (args self)) +:+ ".0.0";
                    "script_version" := "1";
                    "generation_date" := generation_date std_datetime_str ]}
                 : gmap string string) !! k
              else
                ({[ "version" := fmt_i (version (args self)) +:+ ".0.0";
                    "description" := "Dragon7 - FP1 - MD5270";
                    "script_version" := "1";
                    "generation_date" := generation_date std_datetime_str ]}
                 : gmap string string) !! k) as Hat.
  { intros k. unfold fresh_tree. destruct (version (args self) =? 6); [done|].
    unfold dragon7. cbn [fst attrib]. by rewrite effective_version. }
  rewrite !Hat.
  split_and!; [| | |reflexivity|apply replace_dash_length
               |apply replace_dash_no_dash|];
    destruct Hv as [Hv|Hv]; rewrite Hv; reflexivity.
Qed.

(** X10.  In the OUTPUT section of a fresh build of version 6 or 7 that
    returned, the save-file path and the log file are placed under the
    stored directory, while the project file is written as given; the log
    file is there exactly when the log mode is file, the project file
    exactly when the project is saved. *)
Theorem X10_output_paths outdir self w self' w' :
  supported (version (args self)) →
  script_wizard std_datetime_str "new" outdir self w = (self', w', Return) →
  ∃ doc,
    dragon self' = Some doc ∧
    section_value "OUTPUT" "SaveFilePath" doc
      = Some (stored_directory outdir +:+ SaveFilePath (args self)) ∧
    section_value "OUTPUT" "SaveType" doc = Some (SaveType (args self)) ∧
    section_value "OUTPUT" "logMode" doc = Some (logMode (args self)) ∧
    section_value "OUTPUT" "logFile" doc
      = (if String.eqb (logMode (args self)) "file"
         then Some (stored_directory outdir +:+ logFile (args self))
         else None) ∧
    section_value "OUTPUT" "SaveProjectFile" doc
      = (if SaveProject (args self) then Some (SaveProjectFile (args self))
         else None).
Proof.
  intros Hv Hrun.
  destruct (returned_build _ _ _ _ _ Hv Hrun) as (_ & Hx & Hsf & _ & _ & Hd & Hc).
  eexists. split; [exact Hd|].
  pose proof (fresh_tree_children std_datetime_str (args self)
                (stored_directory outdir) Hv) as Hc'.
  rewrite !(section_value_found _ _ _ _ (find_OUTPUT _ _ _ Hx Hc')).
  unfold OUTPUT_part, OUTPUT_body. rewrite Hsf.
  destruct Hv as [Hv|Hv]; rewrite Hv; cbn [Z.eqb Pos.eqb];
    destruct (SaveProject (args self)),
      (String.eqb (logMode (args self)) "file");
    split_and!; reflexivity.
Qed.

Lemma is_leaf_value_element t v : is_leaf (value_element t v).
Proof. split; [done|by eexists]. Qed.

Ltac leaves :=
  repeat first
    [ apply List.Forall_nil
    | apply List.Forall_cons;
      [first [by left | right; apply is_leaf_value_element
             | apply is_leaf_value_element]|] ].

Lemma OPTIONS_part_leaves p :
  supported (version p) →
  Forall (fun e => tag e = "Weights" ∨ is_leaf e) (OPTIONS_part p).1.
Proof.
  intros Hv. unfold OPTIONS_part.
  destruct Hv as [Hv|Hv]; rewrite Hv; cbn [Z.eqb Pos.eqb].
  - unfold OPTIONS_body6. destruct (Weights_loop (Weights p)) as [? [?|]];
      cbn [block and_then append SubElement nothing fst snd app]; leaves.
  - unfold OPTIONS_body7.
    destruct (Weights_loop (Weights (effective p))) as [? [?|]];
      cbn [block and_then append SubElement nothing fst snd app]; leaves.
Qed.

Lemma OUTPUT_part_leaves p dir :
  supported (version p) → Forall is_leaf (OUTPUT_part p dir).
Proof.
  intros Hv. unfold OUTPUT_part, OUTPUT_body.
  destruct Hv as [Hv|Hv]; rewrite Hv; cbn [Z.eqb Pos.eqb];
    destruct (SaveProject p), (SaveFile p), (String.eqb (logMode p) "file");
    cbn [block and_then append nothing fst snd app]; leaves.
Qed.

(** X11.  In the tree of a fresh build of version 6 or 7 that returned,
    every setting is an element without children whose only attribute is
    value: this holds for every child of a section other than DESCRIPTORS,
    the Weights list of OPTIONS apart. *)
Theorem X11_settings_are_leaves outdir self w self' w' :
  supported (version (args self)) →
  script_wizard std_datetime_str "new" outdir self w = (self', w', Return) →
  ∃ doc,
    dragon self' = Some doc ∧
    ∀ s e, s ∈ children doc → e ∈ children s →
           tag s ≠ "DESCRIPTORS" → tag e ≠ "Weights" → is_leaf e.
Proof.
  intros Hv Hrun.
  destruct (returned_build _ _ _ _ _ Hv Hrun) as (_ & Hx & _ & _ & _ & Hd & Hc).
  eexists. split; [exact Hd|]. rewrite Hc. clear Hc Hd.
  apply fresh_exn_None in Hx as (_ & _ & Hm & He); [|done].
  intros s e Hs Hin Hnd Hnw.
  rewrite elem_of_app, !elem_of_cons, elem_of_nil in Hs.
  destruct Hs as [[->|[->|[->|[->|[]]]]]|Hs]; cbn [children tag] in *.
  - pose proof (OPTIONS_part_leaves (args self) Hv) as Hl.
    rewrite Forall_forall in Hl. destruct (Hl e Hin); done.
  - done.
  - destruct (MOLFILES_part_cases (args self) Hv)
      as [(_ & _ & H)|[(_ & _ & H)|[(_ & f & _ & H)|[(_ & _ & H)|(_ & _ & H)]]]];
      pose proof (MOLFILES_part_valid _ Hv Hm) as Hn; rewrite H in Hin, Hn;
      cbn [fst snd] in Hin, Hn; try done;
      rewrite !elem_of_cons, elem_of_nil in Hin;
      destruct Hin as [->|[->|[]]]; apply is_leaf_value_element.
  - pose proof (OUTPUT_part_leaves (args self) (stored_directory outdir) Hv) as Hl.
    rewrite Forall_forall in Hl. by apply Hl.
  - destruct (EXTERNAL_section_cases (args self))
      as [(_ & H)|[(_ & fn & _ & H)|(Ht & Hn & _)]].
    + rewrite H in Hs. by apply elem_of_nil in Hs.
    + rewrite H in Hs. cbn [fst] in Hs. apply list_elem_of_singleton in Hs as ->.
      unfold EXTERNAL_fields in Hin. cbn [children] in Hin.
      rewrite !elem_of_cons, elem_of_nil in Hin.
      destruct Hin as [->|[->|[->|[->|[]]]]]; apply is_leaf_value_element.
    + destruct (He Ht) as [? ?]. congruence.
Qed.

(** X12.  Loading a document that has the four mandatory sections and an
    OUTPUT/SaveFilePath value returns, whatever the options of the object
    are, its version included: the object holds the document, the script
    name and the data path read from it.  A warning is issued exactly when
    the version attribute of the root starts with neither 6 nor 7, and it
    does not stop the loading.  No file is written. *)
Theorem X12_load_returns script outdir self w doc ver c v :
  script ≠ "new" → outdir ≠ "" →
  files w !! script = Some (XmlDocument doc) →
  attrib doc !! "version" = Some ver → first_char ver = Some c →
  (∀ m, m ∈ mandatory_nodes → has_section m doc) →
  section_value "OUTPUT" "SaveFilePath" doc = Some v →
  ∃ w',
    script_wizard std_datetime_str script outdir self w
      = (set_data_path v (set_drs script (set_dragon doc
           (set_output_directory (stored_directory outdir) self))),
         w', Return) ∧
    files w' = files w ∧
    (c = "6"%char ∨ c = "7"%char → warnings w' = warnings w) ∧
    (c ≠ "6"%char → c ≠ "7"%char →
     warnings w' = warnings w ++ [label_message]).
Proof.
  intros Hs Hne Hfile Hver Hc Hman Hval.
  rewrite script_wizard_load by done.
  unfold load_script. rewrite ensure_directory_files, Hfile. cbn zeta.
  rewrite Hver, Hc. rewrite (proj2 (mandatory_check _) Hman).
  erewrite read_data_path_Return; [|reflexivity|exact Hval].
  eexists. split; [reflexivity|].
  case_bool_decide as Hin; rewrite !elem_of_cons, elem_of_nil in Hin.
  - rewrite ensure_directory_files, ensure_directory_warnings.
    split_and!; [done|done|]. intros H6 H7.
    destruct Hin as [?|[?|[]]]; done.
  - cbn [files warnings warnings_warn].
    rewrite ensure_directory_files, ensure_directory_warnings.
    split_and!; [done| |done]. intros [?|?]; destruct Hin; auto.
Qed.








(** X14.  A fresh build of a version other than 6 and 7, with a non-empty
    directory argument, always issues the warning and never writes a file
    or touches the tree of the object.  It returns exactly when the object
    still holds, from an earlier call, a tree with an
    OUTPUT/SaveFilePath value, which it stores as data path; otherwise
    line 339 raises and the data path is left as it was. *)
Theorem X14_unsupported_version outdir self w :
  outdir ≠ "" → ¬ supported (version (args self)) →
  ∃ self' w' o,
    script_wizard std_datetime_str "new" outdir self w = (self', w', o) ∧
    warnings w' = warnings w ++ [unsupported_message] ∧
    files w' = files w ∧ dragon self' = dragon self ∧
    drs_name self' = drs_name self ∧
    (o = Return
     ↔ is_Some (dragon self ≫= section_value "OUTPUT" "SaveFilePath")) ∧
    (o = Return →
     data_path self' = dragon self ≫= section_value "OUTPUT" "SaveFilePath") ∧
    (o ≠ Return → data_path self' = data_path self).
Proof.
  intros Hne Hv. rewrite script_wizard_new by done. cbn zeta.
  cbn [args set_output_directory].
  destruct (Z.eqb_spec (version (args self)) 6) as [E|_]; [by destruct Hv; left|].
  destruct (Z.eqb_spec (version (args self)) 7) as [E|_]; [by destruct Hv; right|].
  unfold read_data_path, section_value, value_of.
  cbn [dragon set_output_directory].
  destruct (dragon self) as [doc|] eqn:Hd; cbn [mbind option_bind].
  2:{ eexists _, _, _. split; [reflexivity|]. cbn.
      rewrite ensure_directory_files, ensure_directory_warnings, Hd.
      split_and!; try done; try (split; [done|by intros [? ?]]). }
  destruct (find_child "OUTPUT" doc) as [out|]; cbn [mbind option_bind].
  2:{ eexists _, _, _. split; [reflexivity|]. cbn.
      rewrite ensure_directory_files, ensure_directory_warnings, Hd.
      split_and!; try done; try (split; [done|by intros [? ?]]). }
  destruct (find_child "SaveFilePath" out) as [sfp|]; cbn [mbind option_bind].
  2:{ eexists _, _, _. split; [reflexivity|]. cbn.
      rewrite ensure_directory_files, ensure_directory_warnings, Hd.
      split_and!; try done; try (split; [done|by intros [? ?]]). }
  destruct (attrib sfp !! "value") as [v|].
  - eexists _, _, _. split; [reflexivity|]. cbn.
    rewrite ensure_directory_files, ensure_directory_warnings, Hd.
    split_and!; try done; try (split; [by eexists|done]).
  - eexists _, _, _. split; [reflexivity|]. cbn.
    rewrite ensure_directory_files, ensure_directory_warnings, Hd.
    split_and!; try done; try (split; [done|by intros [? ?]]).
Qed.

(** *** [run] and [printout] after [script_wizard] *)

(** X15.  After a fresh build of version 6 or 7 that returned, [run]
    prints its first line, hands [os.system] one command, the shell of the
    version with the option -s and the path of the script the build wrote,
    prints its last line and returns. *)
Theorem X15_run_after_fresh_build outdir self w self' w' c :
  supported (version (args self)) →
  script_wizard std_datetime_str "new" outdir self w = (self', w', Return) →
  is_Some (files w' !! script_path outdir) ∧
  run self' c
  = (mkConsole
       (stdout c ++
        ["running Dragon" +:+ fmt_i (version (args self)) +:+ " ...";
         "... Dragon job completed!"])
       (commands c ++
        ["nohup dragon" +:+ fmt_i (version (args self)) +:+ "shell -s " +:+
         script_path outdir]),
     Return).
Proof.
  intros Hv Hrun.
  destruct (returned_build _ _ _ _ _ Hv Hrun) as (_ & _ & _ & -> & -> & _ & _).
  split.
  { unfold saved_world, script_path. cbn [files write_file].
    rewrite lookup_insert_eq. by eexists. }
  unfold run, saved_self, built_self, script_path.
  cbn [args output_directory drs_name set_data_path set_drs_name set_dragon
       set_args set_output_directory].
  rewrite effective_version. unfold print, os_system. cbn [stdout commands].
  by rewrite <- app_assoc.
Qed.

(** X16.  Loading a script does not prepare the object for [run]: on an
    object that has never written a script itself, [run] after a loading
    that returned prints its first line and then raises AttributeError,
    because only [_save_script] sets the script name it uses; no command
    is given to [os.system]. *)
Theorem X16_run_after_load script outdir self w self' w' c :
  script ≠ "new" → drs_name self = None →
  script_wizard std_datetime_str script outdir self w = (self', w', Return) →
  run self' c
  = (mkConsole
       (stdout c ++ ["running Dragon" +:+ fmt_i (version (args self)) +:+ " ..."])
       (commands c),
     Raise (AttributeError "'Dragon' object has no attribute 'drs_name'")).
Proof.
  intros Hs Hn Hrun.
  assert (outdir ≠ "") as Hne.
  { intros ->. rewrite script_wizard_empty in Hrun. congruence. }
  pose proof (stored_directory_kept std_datetime_str script outdir self w Hne)
    as Hdir.
  rewrite Hrun in Hdir. cbn [fst] in Hdir.
  apply script_wizard_frame in Hrun as (_ & _ & _ & [Ha|(? & _)] & _ & Hd);
    [|done|done].
  unfold run. by rewrite Hdir, (Hd Hs), Hn, Ha.
Qed.

(** A call that returned has left a tree in the object. *)
Lemma returned_holds_tree script outdir self w self' w' :
  script_wizard std_datetime_str script outdir self w = (self', w', Return) →
  is_Some (dragon self').
Proof.
  unfold script_wizard.
  destruct (last_char outdir) as [c|]; [|done]. cbn zeta.
  assert (∀ s x, read_data_path s x = (self', w', Return) →
            is_Some (dragon self')) as Hread.
  { intros s x Hr.
    apply read_data_path_inv in Hr as (_ & _ & _ & Hd & _ & doc & Hs & _).
    rewrite Hd, Hs. by eexists. }
  assert (∀ b s x, finish_fresh b s x = (self', w', Return) →
            is_Some (dragon self')) as Hfin.
  { intros [tree [e|]] s x; unfold finish_fresh; cbn [fst snd]; [done|].
    destruct (_save_script _ _) as [[s1 x1] [e|]]; [done|]. apply Hread. }
  destruct (String.eqb script "new").
  - destruct (version _ =? 6); [apply Hfin|].
    destruct (version _ =? 7); [apply Hfin|apply Hread].
  - unfold load_script. intros H.
    repeat match type of H with
           | context [match ?x with _ => _ end] => destruct x eqn:?
           end; first [done | by eapply Hread].
Qed.

(** X17.  After any call of [script_wizard] that returned, fresh or
    loading, [printout] prints the dump of the tree the object holds,
    gives no command and returns. *)
Theorem X17_printout_after_return dump script outdir self w self' w' c :
  script_wizard std_datetime_str script outdir self w = (self', w', Return) →
  ∃ doc,
    dragon self' = Some doc ∧
    printout dump self' c
    = (mkConsole (stdout c ++ [dump doc]) (commands c), Return).
Proof.
  intros Hrun. destruct (returned_holds_tree _ _ _ _ _ _ Hrun) as [doc Hd].
  exists doc. split; [done|]. unfold printout. by rewrite Hd.
Qed.

(** *** More on the checks of a fresh build *)





(** X21.  The two versions do not write the same options: ShowWorksheet,
    HelpBrowser and MaxSR appear under version 6 only;
    PreserveTemporaryProjects, DisconnectedCalculationOption and
    RoundDescriptorValues in OPTIONS and knimemode in OUTPUT appear under
    version 7 only.  Each carries the value of its option. *)
Theorem X21_version_schemas outdir self w self' w' :
  supported (version (args self)) →
  script_wizard std_datetime_str "new" outdir self w = (self', w', Return) →
  ∃ doc,
    dragon self' = Some doc ∧
    let only6 (x : string) := if version (args self) =? 6 then Some x else None in
    let only7 (x : string) := if version (args self) =? 6 then None else Some x in
    section_value "OPTIONS" "ShowWorksheet" doc
      = only6 (_bool_formatter (ShowWorksheet (args self))) ∧
    section_value "OPTIONS" "HelpBrowser" doc = only6 (HelpBrowser (args self)) ∧
    section_value "OPTIONS" "MaxSR" doc = only6 (MaxSR (args self)) ∧
    section_value "OPTIONS" "PreserveTemporaryProjects" doc
      = only7 (_bool_formatter (PreserveTemporaryProjects (args self))) ∧
    section_value "OPTIONS" "DisconnectedCalculationOption" doc
      = only7 (DisconnectedCalculationOption (args self)) ∧
    section_value "OPTIONS" "RoundDescriptorValues" doc
      = only7 (_bool_formatter (RoundDescriptorValues (args self))) ∧
    section_value "OUTPUT" "knimemode" doc
      = only7 (_bool_formatter (knimemode (args self))).
Proof.
  intros Hv Hrun.
  destruct (returned_build _ _ _ _ _ Hv Hrun) as (_ & Hx & Hsf & _ & _ & Hd & _).
  eexists. split; [exact Hd|]. cbn zeta.
  pose proof (fresh_tree_children std_datetime_str (args self)
                (stored_directory outdir) Hv) as Hc.
  rewrite !(section_value_found _ _ _ _ (find_OUTPUT _ _ _ Hx Hc)).
  rewrite !(section_value_found _ _ _ _ (find_OPTIONS _ _ _ Hc)).
  pose proof Hv as Hv'.
  apply fresh_exn_None in Hx as (Hw & _); [|done].
  apply Weights_loop_valid in Hw.
  unfold OPTIONS_part, OUTPUT_part, OUTPUT_body, effective.
  destruct Hv as [Hv|Hv]; rewrite Hv; cbn [Z.eqb Pos.eqb].
  - unfold OPTIONS_body6. rewrite Hw.
    destruct (SaveProject (args self)), (SaveFile (args self)),
      (String.eqb (logMode (args self)) "file");
      split_and!; reflexivity.
  - unfold OPTIONS_body7.
    destruct (String.eqb (Missing_String (args self)) "NaN");
      cbn [Weights set_Missing_String]; rewrite Hw;
      destruct (SaveProject (args self)), (SaveFile (args self)),
        (String.eqb (logMode (args self)) "file");
      split_and!; reflexivity.
Qed.

End Extras.

(** ** Concrete runs of the further properties *)

Lemma outcome_eta {A B : Type} (r : A * B * outcome) (o : outcome) :
  r.2 = o → r = (r.1.1, r.1.2, o).
Proof. destruct r as [[a b] c]. cbn. by intros ->. Defined.

Lemma default_run_returned :
  default_call = (default_call.1.1, default_call.1.2, Return).
Proof. apply outcome_eta. vm_compute. reflexivity. Defined.

Lemma example7_run_returned :
  example7_call = (example7_call.1.1, example7_call.1.2, Return).
Proof. apply outcome_eta. vm_compute. reflexivity. Defined.

Lemma with_external_run_returned :
  with_external_call = (with_external_call.1.1, with_external_call.1.2, Return).
Proof. apply outcome_eta. vm_compute. reflexivity. Defined.

Lemma loaded_run_returned :
  loaded_call = (loaded_call.1.1, loaded_call.1.2, Return).
Proof. apply outcome_eta. vm_compute. reflexivity. Defined.

Lemma supported_defaults : supported (version (args (Dragon__init__ defaults))).
Proof. left. reflexivity. Defined.

Lemma supported_example7 : supported (version (args example7)).
Proof. right. reflexivity. Defined.

Lemma supported_with_external : supported (version (args with_external)).
Proof. left. reflexivity. Defined.


Lemma out_not_empty : ("out" : string) ≠ "".
Proof. discriminate. Defined.






Lemma X6_witness :
  drs (script_wizard example_clock "new" "out" example7 empty_world).1.1 = None ∧
  drs_name loaded_call.1.1 = None.
Proof.
  split.
  - exact (proj1 (proj2 (X6_options_kept example_clock "new" "out" example7
                           empty_world)) eq_refl).
  - assert ("old/script.drs" ≠ "new") as Hs by discriminate.
    exact (proj2 (proj2 (X6_options_kept example_clock "old/script.drs"
                           "out" unsupported8 old_world)) Hs).
Defined.

Lemma X7_witness :
  ∃ doc options,
    dragon example7_call.1.1 = Some doc ∧
    find_child "DESCRIPTORS" doc
      = Some (Element "DESCRIPTORS" ∅ (block_element <$> [1; 2; 3])) ∧
    find_child "OPTIONS" doc = Some options ∧
    find_child "Weights" options
      = Some (Element "Weights" ∅
                (weight_element <$> ["Mass"; "VdWVolume"]%string)).
Proof.
  destruct (X7_blocks_and_weights_serialized example_clock "out" example7
              empty_world example7_call.1.1 example7_call.1.2
              supported_example7 example7_run_returned)
    as (doc & options & Hd & Hb & Ho & Hw).
  exists doc, options.
  split; [exact Hd|]. split; [rewrite Hb; reflexivity|].
  split; [exact Ho|]. rewrite Hw. reflexivity.
Defined.

Lemma X8_witness :
  ∃ doc,
    dragon with_external_call.1.1 = Some doc ∧ tag doc = "DRAGON" ∧
    tag <$> children doc
      = ["OPTIONS"; "DESCRIPTORS"; "MOLFILES"; "OUTPUT"; "EXTERNAL"]%string.
Proof.
  destruct (X8_section_order example_clock "out/" with_external empty_world
              with_external_call.1.1 with_external_call.1.2
              supported_with_external with_external_run_returned)
    as (doc & Hd & Ht & Hc).
  exists doc. split; [exact Hd|]. split; [exact Ht|].
  rewrite Hc. reflexivity.
Defined.

Lemma X9_witness :
  ∃ doc,
    dragon default_call.1.1 = Some doc ∧
    attrib doc !! "version" = Some "6.0.0" ∧
    attrib doc !! "generation_date" = Some "2015/11/19" ∧
    attrib doc !! "description" = None.
Proof.
  destruct (X9_root_attributes example_clock "./" (Dragon__init__ defaults)
              empty_world default_call.1.1 default_call.1.2
              supported_defaults default_run_returned)
    as (doc & date & Hd & Hver & _ & Hdate & -> & _ & _ & Hdesc).
  exists doc. split; [exact Hd|].
  split; [rewrite Hver; reflexivity|].
  split; [rewrite Hdate; reflexivity|]. rewrite Hdesc. reflexivity.
Defined.

Lemma X10_witness :
  ∃ doc,
    dragon default_call.1.1 = Some doc ∧
    section_value "OUTPUT" "SaveFilePath" doc = Some "./Dragon_descriptors.txt" ∧
    section_value "OUTPUT" "logFile" doc = Some "./Dragon_log.txt" ∧
    section_value "OUTPUT" "SaveProjectFile" doc = None.
Proof.
  destruct (X10_output_paths example_clock "./" (Dragon__init__ defaults)
              empty_world default_call.1.1 default_call.1.2
              supported_defaults default_run_returned)
    as (doc & Hd & Hp & _ & _ & Hl & Hs).
  exists doc. split; [exact Hd|].
  split; [rewrite Hp; reflexivity|].
  split; [rewrite Hl; reflexivity|]. rewrite Hs. reflexivity.
Defined.

Lemma X11_witness :
  ∃ doc,
    dragon default_call.1.1 = Some doc ∧
    ∀ s e, s ∈ children doc → e ∈ children s →
           tag s ≠ "DESCRIPTORS" → tag e ≠ "Weights" → is_leaf e.
Proof.
  exact (X11_settings_are_leaves example_clock "./" (Dragon__init__ defaults)
           empty_world default_call.1.1 default_call.1.2
           supported_defaults default_run_returned).
Defined.

Lemma X12_witness :
  ∃ w',
    script_wizard example_clock "old/script.drs" "out" unsupported8 old_world
    = (set_data_path "old/descriptors.txt"
         (set_drs "old/script.drs"
            (set_dragon old_script (set_output_directory "out/" unsupported8))),
       w', Return) ∧
    files w' = files old_world ∧ warnings w' = [label_message].
Proof.
  assert ("old/script.drs" ≠ "new") as Hs by discriminate.
  assert (files old_world !! "old/script.drs" = Some (XmlDocument old_script))
    as Hfile by (vm_compute; reflexivity).
  assert (attrib old_script !! "version" = Some "5.4.0") as Hver
    by (vm_compute; reflexivity).
  assert (∀ m, m ∈ mandatory_nodes → has_section m old_script) as Hman
    by (intros m Hm; exact Hm).
  assert (section_value "OUTPUT" "SaveFilePath" old_script
          = Some "old/descriptors.txt") as Hval
    by (vm_compute; reflexivity).
  destruct (X12_load_returns example_clock "old/script.drs" "out"
              unsupported8 old_world old_script "5.4.0" "5"
              "old/descriptors.txt" Hs out_not_empty Hfile Hver eq_refl
              Hman Hval)
    as (w' & Hrun & Hf & _ & Hw).
  exists w'. split; [exact Hrun|]. split; [exact Hf|].
  rewrite Hw; [reflexivity|discriminate..].
Defined.


Lemma X14_witness :
  ∃ self' w' o,
    script_wizard example_clock "new" "out" unsupported8 empty_world
      = (self', w', o) ∧
    warnings w' = [unsupported_message] ∧ files w' = ∅ ∧ o ≠ Return.
Proof.
  assert (¬ supported (version (args unsupported8))) as Hv
    by (intros [H|H]; discriminate H).
  destruct (X14_unsupported_version example_clock "out" unsupported8 empty_world
              out_not_empty Hv)
    as (self' & w' & o & Hrun & Hw & Hf & _ & _ & Hiff & _).
  exists self', w', o. split_and!; [exact Hrun|exact Hw|exact Hf|].
  intros Ho. apply Hiff in Ho. destruct Ho as [x Hx]. discriminate Hx.
Defined.

Lemma X15_witness :
  run default_call.1.1 empty_console
  = (mkConsole ["running Dragon6 ..."; "... Dragon job completed!"]%string
       ["nohup dragon6shell -s ./Dragon_script.drs"]%string,
     Return).
Proof.
  destruct (X15_run_after_fresh_build example_clock "./"
              (Dragon__init__ defaults) empty_world default_call.1.1
              default_call.1.2 empty_console supported_defaults
              default_run_returned) as [_ Hrun].
  rewrite Hrun. reflexivity.
Defined.

Lemma X16_witness :
  run loaded_call.1.1 empty_console
  = (mkConsole ["running Dragon8 ..."]%string [],
     Raise (AttributeError "'Dragon' object has no attribute 'drs_name'")).
Proof.
  assert ("old/script.drs" ≠ "new") as Hs by discriminate.
  rewrite (X16_run_after_load example_clock "old/script.drs" "out"
             unsupported8 old_world loaded_call.1.1 loaded_call.1.2
             empty_console Hs eq_refl loaded_run_returned).
  reflexivity.
Defined.

Lemma X17_witness :
  ∃ doc,
    dragon loaded_call.1.1 = Some doc ∧
    printout tag loaded_call.1.1 empty_console
    = (mkConsole [tag doc] [], Return).
Proof.
  exact (X17_printout_after_return example_clock tag "old/script.drs"
           "out" unsupported8 old_world loaded_call.1.1 loaded_call.1.2
           empty_console loaded_run_returned).
Defined.




Lemma X21_witness :
  ∃ doc,
    dragon default_call.1.1 = Some doc ∧
    section_value "OPTIONS" "MaxSR" doc = Some "35" ∧
    section_value "OPTIONS" "PreserveTemporaryProjects" doc = None ∧
    section_value "OUTPUT" "knimemode" doc = None.
Proof.
  destruct (X21_version_schemas example_clock "./" (Dragon__init__ defaults)
              empty_world default_call.1.1 default_call.1.2
              supported_defaults default_run_returned)
    as (doc & Hd & _ & _ & Hm & Hp & _ & _ & Hk).
  exists doc. split; [exact Hd|].
  split; [rewrite Hm; reflexivity|].
  split; [rewrite Hp; reflexivity|]. rewrite Hk. reflexivity.
Defined.
